(** * Telco churn ETL pipeline: transform, validation and analysis stages

    A shallow embedding of [scripts/transform.py], [scripts/validate.py] and
    [scripts/etl_analysis.py], and the properties of the pipeline stated
    over it.

    Modelling conventions.
    - A pandas [DataFrame] is a list of named columns, a column is a list
      of cells, and a cell is missing ([NaN]/[None]), a number or a string:
      the three kinds of value [pd.read_csv] produces for this dataset.
      Boolean cells are outside the model.
    - Floating-point numbers are idealised as exact rationals ([Q]);
      rounding and overflow are not modelled, and a cell of a frame holds
      no infinity.  Equality of computed numbers is therefore stated with
      [==] ([Qeq]).  Where the code's behaviour on an infinity matters
      ([int()] in check 6, [pd.cut]), it is spelled out on the type
      [number].
    - A Python exception is a value of [exn]; a computation that can raise
      has type [result A].
    - Library functions whose grammar lives outside the repository (the
      numeric-literal parser behind [pd.to_numeric], Python's [int(str)],
      the printing of a number by [astype(str)]) are explicit function
      parameters: the theorems hold whatever they do. *)

From Stdlib Require Import List String Ascii Bool Arith ZArith QArith Lia Lqa.
Import ListNotations.
Local Open Scope string_scope.

(** ** Python exceptions and results *)

Inductive exn : Type :=
| KeyError (key : string)
| TypeError
| ValueError
| OverflowError
| EmptyDataError
| ConnectionError
| SystemExit.

Inductive result (A : Type) : Type :=
| Ok (a : A)
| Raise (e : exn).
Arguments Ok {A} a.
Arguments Raise {A} e.

Definition bind {A B : Type} (m : result A) (k : A -> result B) : result B :=
  match m with
  | Ok a => k a
  | Raise e => Raise e
  end.

Notation "x <- m ;; k" := (bind m (fun x => k))
  (at level 61, m at next level, right associativity).

(** ** Numbers *)

Definition Qlt_bool (x y : Q) : bool := negb (Qle_bool y x).

(** ** Strings *)

(** [str.lower()] on the ASCII range; other bytes are left as they are. *)
Definition lower_ascii (c : ascii) : ascii :=
  let n := nat_of_ascii c in
  if (65 <=? n)%nat && (n <=? 90)%nat then ascii_of_nat (n + 32) else c.

Fixpoint str_lower (s : string) : string :=
  match s with
  | EmptyString => EmptyString
  | String c r => String (lower_ascii c) (str_lower r)
  end.

(** The white space [str.strip()] removes, on the ASCII range: the blank,
    tab to carriage return, and the four separators U+001C to U+001F.
    White space beyond ASCII (U+0085, U+00A0, ...) is not modelled. *)
Definition is_space (c : ascii) : bool :=
  let n := nat_of_ascii c in
  (n =? 32)%nat || ((9 <=? n)%nat && (n <=? 13)%nat)
  || ((28 <=? n)%nat && (n <=? 31)%nat).

Fixpoint lstrip (s : string) : string :=
  match s with
  | String c r => if is_space c then lstrip r else s
  | EmptyString => EmptyString
  end.

Fixpoint rstrip (s : string) : string :=
  match s with
  | EmptyString => EmptyString
  | String c r =>
      match rstrip r with
      | EmptyString => if is_space c then EmptyString else String c EmptyString
      | r' => String c r'
      end
  end.

(** [str.strip()] *)
Definition str_strip (s : string) : string := rstrip (lstrip s).

Definition str_in (s : string) (l : list string) : bool :=
  existsb (String.eqb s) l.

(** ** Data frames *)

Inductive cell : Type :=
| CNull
| CNum (q : Q)
| CStr (s : string).

Definition column : Type := list cell.
Definition DataFrame : Type := list (string * column).

Definition isna (c : cell) : bool :=
  match c with CNull => true | _ => false end.

Definition notna (c : cell) : bool := negb (isna c).

(** [df.columns] *)
Definition columns (df : DataFrame) : list string := map fst df.

(** [col in df.columns] *)
Definition has_col (df : DataFrame) (name : string) : bool :=
  str_in name (columns df).

(** [df[name]], which raises [KeyError] on an unknown label. *)
Fixpoint getcol (df : DataFrame) (name : string) : result column :=
  match df with
  | [] => Raise (KeyError name)
  | (n, c) :: rest => if String.eqb n name then Ok c else getcol rest name
  end.

(** [df[name] = col]: an existing column is replaced where it stands, a new
    one is appended. *)
Fixpoint setcol (df : DataFrame) (name : string) (col : column) : DataFrame :=
  match df with
  | [] => [(name, col)]
  | (n, c) :: rest =>
      if String.eqb n name then (n, col) :: rest
      else (n, c) :: setcol rest name col
  end.

(** [len(df)]: the length of the index, which every column shares. *)
Definition nrows (df : DataFrame) : nat :=
  match df with
  | [] => 0
  | (_, c) :: _ => List.length c
  end.

(** Every column of [df] has [n] cells. *)
Definition height (df : DataFrame) (n : nat) : Prop :=
  Forall (fun nc => List.length (snd nc) = n) df.

(** [df.empty]: some axis has length zero. *)
Definition df_empty (df : DataFrame) : bool :=
  match df with
  | [] => true
  | _ => (nrows df =? 0)%nat
  end.

(** [s.isna().sum()] *)
Definition null_count (c : column) : nat := List.length (filter isna c).

(** [Series.mean()]: the mean of the non-missing numbers, [NaN] when there
    are none.  The result is a cell, so that [NaN] is [CNull]. *)
Definition numbers (c : column) : list Q :=
  flat_map (fun x => match x with CNum q => [q] | _ => [] end) c.

Definition Qsum (l : list Q) : Q := fold_right Qplus 0 l.

Definition mean (c : column) : cell :=
  match numbers c with
  | [] => CNull
  | l => CNum (Qsum l / inject_Z (Z.of_nat (List.length l)))
  end.

(** [Series.fillna(v)] *)
Definition fillna (v : cell) (c : column) : column :=
  map (fun x => if isna x then v else x) c.

(** A minimal decimal-literal reader, [[+-]digits[.digits]] between optional
    blanks, used to instantiate the numeric parser in the examples. *)
Definition digit_of (c : ascii) : option Z :=
  let n := nat_of_ascii c in
  if (48 <=? n)%nat && (n <=? 57)%nat then Some (Z.of_nat (n - 48)) else None.

Fixpoint read_digits (s : string) (acc : Z) (k : nat) : Z * nat * string :=
  match s with
  | String c r =>
      match digit_of c with
      | Some d => read_digits r (10 * acc + d)%Z (S k)
      | None => (acc, k, s)
      end
  | EmptyString => (acc, k, s)
  end.

Definition read_unsigned (s : string) : option Q :=
  match read_digits s 0%Z 0%nat with
  | (_, O, _) => None
  | (ip, _, EmptyString) => Some (inject_Z ip)
  | (ip, _, String "." r) =>
      match read_digits r 0%Z 0%nat with
      | (fp, S k, EmptyString) =>
          Some (inject_Z ip + Qmake fp (Pos.pow 10 (Pos.of_nat (S k))))
      | _ => None
      end
  | _ => None
  end.

Definition decimal_literal (s : string) : option Q :=
  match str_strip s with
  | String "-" r => option_map Qopp (read_unsigned r)
  | String "+" r => read_unsigned r
  | t => read_unsigned t
  end.

(** ** Transform stage ([scripts/transform.py]) *)

(** [pd.to_numeric(s, errors='coerce')]: a string that does not read as a
    number becomes missing.  [parse] is pandas' numeric-literal reader. *)
Definition to_numeric (parse : string -> option Q) (c : column) : column :=
  map (fun x =>
         match x with
         | CStr s => match parse s with Some q => CNum q | None => CNull end
         | other => other
         end) c.

(** [df.fillna({key: v}, inplace=True)] *)
Definition fillna_dict (df : DataFrame) (key : string) (v : cell) : DataFrame :=
  map (fun nc => if String.eqb (fst nc) key then (fst nc, fillna v (snd nc))
                 else nc) df.

(** Bin edges: a finite number or [float('inf')]. *)
Inductive bound : Type :=
| Fin (q : Q)
| Inf.

Definition bound_ltb (b : bound) (v : Q) : bool :=
  match b with Fin q => Qlt_bool q v | Inf => false end.

Definition bound_leb (b : bound) (v : Q) : bool :=
  match b with Fin q => Qle_bool q v | Inf => false end.

(** [bins.searchsorted(v, side)] on increasing [bins]: the number of leading
    edges that are [< v] (side ['left']) or [<= v] (side ['right']). *)
Fixpoint searchsorted (side_right : bool) (bins : list bound) (v : Q) : nat :=
  match bins with
  | [] => 0
  | b :: bs =>
      if (if side_right then bound_leb b v else bound_ltb b v)
      then S (searchsorted side_right bs v)
      else 0
  end.

(** One value through [pd.cut(x, bins, labels, right)]: pandas takes
    [ids = bins.searchsorted(x, side='left' if right else 'right')] and
    masks [ids == 0] and [ids == len(bins)] as missing.  Comparing a string
    with the edges raises. *)
Definition cut_cell (bins : list bound) (labels : list string) (right : bool)
    (x : cell) : result cell :=
  match x with
  | CNull => Ok CNull
  | CStr _ => Raise TypeError
  | CNum v =>
      let ids := searchsorted (negb right) bins v in
      if (ids =? List.length bins)%nat || (ids =? 0)%nat then Ok CNull
      else match nth_error labels (ids - 1) with
           | Some l => Ok (CStr l)
           | None => Ok CNull
           end
  end.

Fixpoint cut (bins : list bound) (labels : list string) (right : bool)
    (c : column) : result column :=
  match c with
  | [] => Ok []
  | x :: xs =>
      y <- cut_cell bins labels right x ;;
      ys <- cut bins labels right xs ;;
      Ok (y :: ys)
  end.

(** [Series.map(d)] for a dict with string keys: a value that is not a key
    becomes missing. *)
Fixpoint dict_get {V : Type} (d : list (string * V)) (k : string) : option V :=
  match d with
  | [] => None
  | (k', v) :: rest => if String.eqb k' k then Some v else dict_get rest k
  end.

Definition map_cell (d : list (string * Z)) (x : cell) : cell :=
  match x with
  | CStr s => match dict_get d s with
              | Some v => CNum (inject_Z v)
              | None => CNull
              end
  | _ => CNull
  end.

Definition series_map (d : list (string * Z)) (c : column) : column :=
  map (map_cell d) c.

(** [df.drop(columns=labels)]: every label must exist; the [KeyError]
    names all the labels that do not, as in
    ["['customerID', 'gender'] not found in axis"]. *)
Definition absent_labels (df : DataFrame) (labels : list string) : list string :=
  filter (fun l => negb (has_col df l)) labels.

Definition not_found (labels : list string) : string :=
  "[" ++ String.concat ", " (map (fun l => "'" ++ l ++ "'") labels)
      ++ "] not found in axis".

Fixpoint drop_columns (df : DataFrame) (labels : list string) : DataFrame :=
  match labels with
  | [] => df
  | l :: ls =>
      drop_columns (filter (fun nc => negb (String.eqb (fst nc) l)) df) ls
  end.

Definition drop (df : DataFrame) (labels : list string) : result DataFrame :=
  match absent_labels df labels with
  | [] => Ok (drop_columns df labels)
  | missing => Raise (KeyError (not_found missing))
  end.

(** [df.columns = df.columns.str.lower()] *)
Definition lower_columns (df : DataFrame) : DataFrame :=
  map (fun nc => (str_lower (fst nc), snd nc)) df.

Definition tenure_bins : list bound := [Fin 0; Fin 13; Fin 37; Fin 61; Inf].
Definition tenure_labels : list string := ["New"; "Regular"; "Loyal"; "Champion"].
Definition charge_bins : list bound := [Fin 0; Fin 30; Fin 70; Inf].
Definition charge_labels : list string := ["Low"; "Medium"; "High"].

Definition internet_service_map : list (string * Z) :=
  [("DSL", 1%Z); ("Fiber optic", 1%Z); ("No", 0%Z)].
Definition multiple_lines_map : list (string * Z) :=
  [("Yes", 1%Z); ("No", 0%Z); ("No phone service", 0%Z)].
Definition contract_map : list (string * Z) :=
  [("Month-to-month", 0%Z); ("One year", 1%Z); ("Two year", 2%Z)].

(** The imputation of lines 19-20 on the [TotalCharges] column. *)
Definition impute_total_charges (parse : string -> option Q) (c : column)
    : column :=
  let parsed := to_numeric parse c in
  fillna (mean parsed) parsed.

(** [transform_data], from the frame [pd.read_csv(raw_path)] returned to the
    frame handed to [to_csv]. *)
Definition transform_data (parse : string -> option Q) (df : DataFrame)
    : result DataFrame :=
  tc <- getcol df "TotalCharges" ;;
  let df := setcol df "TotalCharges" (to_numeric parse tc) in
  tc <- getcol df "TotalCharges" ;;
  let df := fillna_dict df "TotalCharges" (mean tc) in
  tenure <- getcol df "tenure" ;;
  tg <- cut tenure_bins tenure_labels false tenure ;;
  let df := setcol df "tenure_group" tg in
  mc <- getcol df "MonthlyCharges" ;;
  seg <- cut charge_bins charge_labels true mc ;;
  let df := setcol df "monthly_charge_segment" seg in
  isv <- getcol df "InternetService" ;;
  let df := setcol df "has_internet_service" (series_map internet_service_map isv) in
  ml <- getcol df "MultipleLines" ;;
  let df := setcol df "is_multi_line_user" (series_map multiple_lines_map ml) in
  ct <- getcol df "Contract" ;;
  let df := setcol df "contract_type_code" (series_map contract_map ct) in
  df <- drop df ["customerID"; "gender"] ;;
  Ok (lower_columns df).

(** ** Remote-store responses ([_extract_data_from_response]) *)

#[local] Set Warnings "-register-all".

(** Python values as the extractor can tell them apart.  An object carries
    its [data] attribute, if it has one, and its [json] attribute: absent,
    a plain value, a callable that returns, or a callable that raises some
    [Exception]. *)
Inductive pyval : Type :=
| PNone
| PNum (q : Q)
| PStr (s : string)
| PList (items : list pyval)
| PTuple (items : list pyval)
| PDict (entries : list (string * pyval))
| PObj (data : option pyval) (json : json_attr)
with json_attr : Type :=
| JsonAbsent
| JsonNotCallable (v : pyval)
| JsonReturns (v : pyval)
| JsonRaises.

Definition is_dict (v : pyval) : bool :=
  match v with PDict _ => true | _ => false end.

(** [getattr(res, "data", None)] *)
Definition getattr_data (res : pyval) : pyval :=
  match res with
  | PObj (Some d) _ => d
  | _ => PNone
  end.

(** [isinstance(v, dict) and isinstance(v.get("data"), list)], with the list *)
Definition dict_data_list (v : pyval) : option (list pyval) :=
  match v with
  | PDict entries =>
      match dict_get entries "data" with
      | Some (PList d) => Some d
      | _ => None
      end
  | _ => None
  end.

(** The [for item in res] loop: the first item that is a list of dicts. *)
Fixpoint first_list_of_dicts (items : list pyval) : option (list pyval) :=
  match items with
  | [] => None
  | PList l :: rest =>
      if forallb is_dict l then Some l else first_list_of_dicts rest
  | _ :: rest => first_list_of_dicts rest
  end.

Definition sequence_case (items : list pyval) : option (list pyval) :=
  match first_list_of_dicts items with
  | Some l => Some l
  | None =>
      match items with
      | PDict _ :: _ => Some items
      | _ => None
      end
  end.

(** The [json()] fallback, with its [try ... except Exception: pass]. *)
Definition json_case (res : pyval) : list pyval :=
  match res with
  | PObj _ (JsonReturns j) =>
      match dict_data_list j with
      | Some d => d
      | None => []
      end
  | _ => []
  end.

Definition _extract_data_from_response (res : pyval) : list pyval :=
  match getattr_data res with
  | PList d => d
  | _ =>
      match dict_data_list res with
      | Some d => d
      | None =>
          match res with
          | PList items | PTuple items =>
              match sequence_case items with
              | Some d => d
              | None => json_case res
              end
          | _ => json_case res
          end
      end
  end.

(** ** Validation stage ([scripts/validate.py]) *)

(** What [supabase.table(...).select("id").execute()] meets. *)
Inductive remote : Type :=
| NoCredentials
| Unreachable
| Responds (res : pyval).

(** [_get_supabase_client()] followed by the query. *)
Definition query_remote (r : remote) : result pyval :=
  match r with
  | NoCredentials => Raise SystemExit
  | Unreachable => Raise ConnectionError
  | Responds res => Ok res
  end.

(** [except Exception] does not catch [SystemExit]. *)
Definition is_Exception (e : exn) : bool :=
  match e with SystemExit => false | _ => true end.

Definition cell_eqb (a b : cell) : bool :=
  match a, b with
  | CNull, CNull => true
  | CNum x, CNum y => Qeq_bool x y
  | CStr s, CStr t => String.eqb s t
  | _, _ => false
  end.

Fixpoint row_eqb (r1 r2 : list cell) : bool :=
  match r1, r2 with
  | [], [] => true
  | a :: r1', b :: r2' => cell_eqb a b && row_eqb r1' r2'
  | _, _ => false
  end.

(** Values in order of first appearance, as [unique()] and
    [drop_duplicates()] keep them. *)
Fixpoint unique {A : Type} (eqb : A -> A -> bool) (l : list A) : list A :=
  match l with
  | [] => []
  | x :: xs => x :: filter (fun y => negb (eqb x y)) (unique eqb xs)
  end.

Definition rows (df : DataFrame) : list (list cell) :=
  map (fun i => map (fun nc => nth i (snd nc) CNull) df) (seq 0 (nrows df)).

(** [len(df.drop_duplicates())] *)
Definition unique_row_count (df : DataFrame) : nat :=
  List.length (unique row_eqb (rows df)).

(** [s.dropna()] *)
Definition dropna (c : column) : column := filter notna c.

Fixpoint insert_sorted {A : Type} (leb : A -> A -> bool) (x : A) (l : list A)
    : list A :=
  match l with
  | [] => [x]
  | y :: ys => if leb x y then x :: l else y :: insert_sorted leb x ys
  end.

Definition sort_by {A : Type} (leb : A -> A -> bool) (l : list A) : list A :=
  fold_right (insert_sorted leb) [] l.

Definition strings (c : column) : list string :=
  flat_map (fun x => match x with CStr s => [s] | _ => [] end) c.

(** [sorted(values)] on non-missing cells: numbers by value, strings by code
    point, and a [TypeError] when a number meets a string. *)
Definition py_sorted (c : column) : result column :=
  match numbers c, strings c with
  | ns, [] => Ok (map CNum (sort_by Qle_bool ns))
  | [], ss => Ok (map CStr (sort_by String.leb ss))
  | _, _ => Raise TypeError
  end.

(** A float that is not [NaN]: a finite number or an infinity.  A [cell]
    of the frame model holds finite numbers only ([CNum]); this type is
    used where the code's behaviour on an infinity is spelled out. *)
Inductive number : Type :=
| Finite (q : Q)
| Infinite (negative : bool).

(** [int(x)] on a float: truncation towards zero, and [OverflowError] on an
    infinity. *)
Definition float_to_int (x : number) : result Z :=
  match x with
  | Finite q => Ok (Z.quot (Qnum q) (Zpos (Qden q)))
  | Infinite _ => Raise OverflowError
  end.

(** [int(c)] on a cell: a (finite) float is truncated towards zero; a
    string goes through Python's integer reader [py_int], which raises
    [ValueError] on what it does not accept. *)
Definition to_int (py_int : string -> option Z) (c : cell) : result Z :=
  match c with
  | CNum q => float_to_int (Finite q)
  | CStr s => match py_int s with Some z => Ok z | None => Raise ValueError end
  | CNull => Raise ValueError
  end.

Definition allowed : list Z := [0%Z; 1%Z; 2%Z].

Definition in_allowed (z : Z) : bool := existsb (Z.eqb z) allowed.

(** [[c for c in unique_codes if int(c) not in allowed]] *)
Fixpoint invalid_codes (py_int : string -> option Z) (codes : list cell)
    : result (list cell) :=
  match codes with
  | [] => Ok []
  | c :: cs =>
      z <- to_int py_int c ;;
      rest <- invalid_codes py_int cs ;;
      Ok (if in_allowed z then rest else c :: rest)
  end.

Inductive contract_check : Type :=
| ColumnMissing
| Codes (unique_codes : list cell) (invalid : list cell).

(** Check 6 on a frame. *)
Definition check_contract_codes (py_int : string -> option Z) (df : DataFrame)
    : result contract_check :=
  if has_col df "contract_type_code" then
    col <- getcol df "contract_type_code" ;;
    unique_codes <- py_sorted (unique cell_eqb (dropna col)) ;;
    inv <- invalid_codes py_int unique_codes ;;
    Ok (Codes unique_codes inv)
  else Ok ColumnMissing.

(** Check 2: one entry per expected column, [None] when it is absent. *)
Definition check_missing (df : DataFrame) : result (list (string * option nat)) :=
  (fix go (names : list string) : result (list (string * option nat)) :=
     match names with
     | [] => Ok []
     | col :: rest =>
         entry <- (if has_col df col
                   then c <- getcol df col ;; Ok (Some (null_count c))
                   else Ok None) ;;
         others <- go rest ;;
         Ok ((col, entry) :: others)
     end) ["tenure"; "MonthlyCharges"; "TotalCharges"].

Record segment_info : Type := {
  nulls : nat;
  unique_values : list cell
}.

(** Check 5 *)
Definition check_segments (df : DataFrame)
    : result (list (string * option segment_info)) :=
  (fix go (names : list string) : result (list (string * option segment_info)) :=
     match names with
     | [] => Ok []
     | seg :: rest =>
         entry <- (if has_col df seg
                   then c <- getcol df seg ;;
                        Ok (Some {| nulls := null_count c;
                                    unique_values := unique cell_eqb (dropna c) |})
                   else Ok None) ;;
         others <- go rest ;;
         Ok ((seg, entry) :: others)
     end) ["tenure_group"; "monthly_charge_segment"].

(** Check 4, with its [try ... except Exception]: [None] is "skipped". *)
Definition check_row_parity (r : remote) : result (option nat) :=
  match query_remote r with
  | Ok res => Ok (Some (List.length (_extract_data_from_response res)))
  | Raise e => if is_Exception e then Ok None else Raise e
  end.

Record report : Type := {
  staged_rows : nat;
  unique_rows : nat;
  missing_values : list (string * option nat);
  supabase_rows : option nat;
  segments : list (string * option segment_info);
  contract_codes : contract_check
}.

(** [validate()].  [staged] is [None] when [STAGED_PATH] does not exist and
    otherwise what [pd.read_csv] makes of the file; the result is [Ok None]
    when the function returns after "Staged file not found", and the printed
    summary otherwise. *)
Definition validate (py_int : string -> option Z)
    (staged : option (result DataFrame)) (r : remote) : result (option report) :=
  match staged with
  | None => Ok None
  | Some read_csv =>
      df <- read_csv ;;
      let total_rows_file := nrows df in
      missing_checks <- check_missing df ;;
      let unique_rows := unique_row_count df in
      total_rows_db <- check_row_parity r ;;
      seg_checks <- check_segments df ;;
      contract <- check_contract_codes py_int df ;;
      Ok (Some {| staged_rows := total_rows_file;
                  unique_rows := unique_rows;
                  missing_values := missing_checks;
                  supabase_rows := total_rows_db;
                  segments := seg_checks;
                  contract_codes := contract |})
  end.

(** ** Analysis stage ([scripts/etl_analysis.py]) *)

(** [{c.lower(): c for c in df.columns}[key]]: the last column whose
    lower-cased name is [key]. *)
Fixpoint lc_get (cols : list string) (key : string) : option string :=
  match cols with
  | [] => None
  | c :: rest =>
      match lc_get rest key with
      | Some later => Some later
      | None => if String.eqb (str_lower c) key then Some c else None
      end
  end.

Fixpoint _find_col (df : DataFrame) (candidates : list string) : option string :=
  match candidates with
  | [] => None
  | cand :: rest =>
      match lc_get (columns df) (str_lower cand) with
      | Some c => Some c
      | None => _find_col df rest
      end
  end.

(** [astype(str)] on one cell; [show] prints a number. *)
Definition astype_str (show : Q -> string) (c : cell) : string :=
  match c with
  | CNull => "nan"
  | CNum q => show q
  | CStr s => s
  end.

Definition truthy : list string := ["yes"; "true"; "1"; "y"].

(** [s.astype(str).str.strip().str.lower().isin({"yes","true","1","y"})] *)
Definition churn_flags (show : Q -> string) (c : column) : list bool :=
  map (fun x => str_in (str_lower (str_strip (astype_str show x))) truthy) c.

Definition count_true (l : list bool) : nat := List.length (filter id l).

Definition Qnat (n : nat) : Q := inject_Z (Z.of_nat n).

(** [float(churn_yes.sum() / len(df) * 100)] *)
Definition churn_percentage (flags : list bool) (n : nat) : Q :=
  Qnat (count_true flags) / Qnat n * 100.

Definition is_str (c : cell) : bool :=
  match c with CStr _ => true | _ => false end.

(** [df.groupby(contract_col, dropna=False)[monthly_col].mean()]: one row
    per distinct key, missing included; averaging strings raises. *)
Definition groupby_mean (keys vals : column) : result (list (cell * cell)) :=
  if existsb is_str vals then Raise TypeError
  else
    Ok (map (fun k =>
               (k, mean (map snd (filter (fun kv => cell_eqb k (fst kv))
                                         (combine keys vals)))))
            (unique cell_eqb keys)).

(** [s.fillna("MISSING").value_counts()] *)
Definition value_counts (c : column) : list (cell * nat) :=
  let filled := fillna (CStr "MISSING") c in
  map (fun v => (v, List.length (filter (cell_eqb v) filled)))
      (unique cell_eqb filled).

Record pivot_row : Type := {
  tenure_group : cell;
  no_churn_pct : Q;
  churn_pct : Q
}.

(** The cell of [pd.crosstab(index, flags)] at row [g], column [f]: the
    number of rows with that pair of values. *)
Definition crosstab_count (pairs : list (cell * bool)) (g : cell) (f : bool)
    : nat :=
  List.length (filter (fun gf => cell_eqb g (fst gf) && Bool.eqb f (snd gf))
                      pairs).

(** Lines 177-184.  [crosstab] has one row for each tenure group that
    occurs and one column for each flag value that occurs, and
    [normalize='index'] divides each count by the sum of its row.  Reading
    back ["no_churn_pct"] or ["churn_pct"] therefore raises [KeyError] when
    no row, respectively every row, is a churner. *)
Definition churn_vs_tenure (tg : column) (flags : list bool)
    : result (list pivot_row) :=
  let pairs := combine (fillna (CStr "MISSING") tg) flags in
  if negb (existsb negb flags) then Raise (KeyError "no_churn_pct")
  else if negb (existsb id flags) then Raise (KeyError "churn_pct")
  else
    Ok (map (fun g =>
               let n_no := crosstab_count pairs g false in
               let n_yes := crosstab_count pairs g true in
               let total := Qnat (n_no + n_yes) in
               {| tenure_group := g;
                  no_churn_pct := Qnat n_no / total * 100;
                  churn_pct := Qnat n_yes / total * 100 |})
            (unique cell_eqb (map fst pairs))).

(** The CSV files [analyze_and_save] writes into [data/processed/]. *)
Inductive artifact : Type :=
| AnalysisSummary (churn_percentage : option Q) (rows_analyzed : nat)
| AvgMonthlyByContract (table : list (cell * cell))
| TenureGroupCounts (table : list (cell * nat))
| InternetServiceDistribution (table : list (cell * nat))
| ChurnVsTenurePivot (table : list pivot_row).

Definition is_empty {A : Type} (l : list A) : bool :=
  match l with [] => true | _ => false end.

Definition save_if_any {A : Type} (file : list A -> artifact) (table : list A)
    : list artifact :=
  if is_empty table then [] else [file table].

(** Column lookups after [_find_col]: the name it returns is a column. *)
Definition col_or_empty (df : DataFrame) (name : string) : column :=
  match getcol df name with Ok c => c | Raise _ => [] end.

Definition monthly_candidates : list string :=
  ["monthlycharges"; "monthly_charges"; "monthlycharge"; "monthly_charge"].
Definition contract_candidates : list string :=
  ["contract"; "contract_type"; "contract_type_code"].
Definition tenure_group_candidates : list string :=
  ["tenure_group"; "tenuregroup"].
Definition internet_candidates : list string :=
  ["internetservice"; "internet_service"].

(** KPI: churn percentage (lines 145-151); [None] when no churn column. *)
Definition kpi_churn_pct (show : Q -> string) (df : DataFrame) : option Q :=
  match _find_col df ["churn"] with
  | Some c =>
      Some (churn_percentage (churn_flags show (col_or_empty df c)) (nrows df))
  | None => None
  end.

(** KPI: average monthly charges per contract (lines 154-161). *)
Definition kpi_avg_monthly (df : DataFrame) : result (list (cell * cell)) :=
  match _find_col df monthly_candidates, _find_col df contract_candidates with
  | Some m, Some c => groupby_mean (col_or_empty df c) (col_or_empty df m)
  | _, _ => Ok []
  end.

(** KPI: count of tenure groups (lines 164-166). *)
Definition kpi_tenure_counts (df : DataFrame) : list (cell * nat) :=
  match _find_col df tenure_group_candidates with
  | Some t => value_counts (col_or_empty df t)
  | None => []
  end.

(** KPI: internet service distribution (lines 169-171). *)
Definition kpi_internet_dist (df : DataFrame) : list (cell * nat) :=
  match _find_col df internet_candidates with
  | Some i => value_counts (col_or_empty df i)
  | None => []
  end.

(** Pivot: churn vs tenure group (lines 174-184). *)
Definition pivot_churn_vs_tenure (show : Q -> string) (df : DataFrame)
    : result (list pivot_row) :=
  match _find_col df ["churn"], _find_col df tenure_group_candidates with
  | Some c, Some t =>
      churn_vs_tenure (col_or_empty df t) (churn_flags show (col_or_empty df c))
  | _, _ => Ok []
  end.

(** [analyze_and_save(df)]: the list of CSV artifacts written, in order.
    Every metric is computed before the first file is written, so an
    exception leaves nothing behind.  The order of the rows inside a table
    (pandas sorts groups) is not modelled, and neither is the plotting
    block, which is wrapped in [try ... except Exception] and writes images
    only. *)
Definition analyze_and_save (show : Q -> string) (df : DataFrame)
    : result (list artifact) :=
  if df_empty df then Ok []
  else
    let churn_pct := kpi_churn_pct show df in
    avg_monthly_by_contract <- kpi_avg_monthly df ;;
    let tenure_counts := kpi_tenure_counts df in
    let internet_dist := kpi_internet_dist df in
    churn_vs_tenure_pivot <- pivot_churn_vs_tenure show df ;;
    Ok (AnalysisSummary churn_pct (nrows df)
        :: save_if_any AvgMonthlyByContract avg_monthly_by_contract
        ++ save_if_any TenureGroupCounts tenure_counts
        ++ save_if_any InternetServiceDistribution internet_dist
        ++ save_if_any ChurnVsTenurePivot churn_vs_tenure_pivot).

(** ** Instances used in the examples *)

(** A minimal integer reader, [[+-]digits] between optional blanks: the
    part of Python's [int(str)] the examples need. *)
Definition decimal_int (s : string) : option Z :=
  let unsigned t :=
    match read_digits t 0%Z 0%nat with
    | (_, O, _) => None
    | (z, _, EmptyString) => Some z
    | _ => None
    end in
  match str_strip s with
  | String "-" r => option_map Z.opp (unsigned r)
  | String "+" r => unsigned r
  | t => unsigned t
  end.

Fixpoint show_digits (fuel : nat) (n : N) (acc : string) : string :=
  match fuel with
  | O => acc
  | S fuel' =>
      let d := String (ascii_of_N (48 + N.modulo n 10)) acc in
      if N.ltb n 10 then d else show_digits fuel' (N.div n 10) d
  end.

Definition show_Z (z : Z) : string :=
  let n := Z.abs_N z in
  let digits := show_digits (S (N.to_nat (N.log2 n))) n "" in
  if Z.ltb z 0 then String "-" digits else digits.

(** How a whole float prints (["1.0"]); other numbers are shown as a
    fraction, which no claim depends on. *)
Definition show_float (q : Q) : string :=
  let r := Qred q in
  if Pos.eqb (Qden r) 1 then show_Z (Qnum r) ++ ".0"
  else show_Z (Qnum r) ++ "/" ++ show_Z (Zpos (Qden r)).

(** A three-row raw file. *)
Definition raw_example : DataFrame :=
  [ ("customerID", [CStr "a"; CStr "b"; CStr "c"]);
    ("gender", [CStr "F"; CStr "M"; CStr "F"]);
    ("tenure", [CNum 0; CNull; CNum 61]);
    ("MonthlyCharges", [CNum 30; CNum (3001#100); CNum 0]);
    ("TotalCharges", [CNull; CNum 50; CNum 70]);
    ("InternetService", [CStr "DSL"; CStr "No"; CNull]);
    ("MultipleLines", [CStr "Yes"; CStr "No phone service"; CStr "x"]);
    ("Contract", [CStr "Month-to-month"; CStr "Two year"; CStr "Bogus"]);
    ("Churn", [CStr "Yes"; CStr "No"; CStr "No"]) ].

(** A four-row remote table. *)
Definition table_example : DataFrame :=
  [ ("Churn", [CStr "Yes"; CStr " no"; CStr "YES "; CStr "No"]);
    ("tenure_group", [CStr "New"; CStr "New"; CNull; CStr "New"]);
    ("monthlycharges", [CNum 10; CNum 20; CNum 30; CNull]);
    ("contract", [CStr "a"; CStr "b"; CStr "a"; CNull]) ].

(** The buckets as the specification words them: tenure edges 0, 13, 37,
    61 with the lower edge inside and the upper edge outside; charge edges
    0, 30, 70 with the lower edge outside and the upper edge inside. *)
Definition tenure_bucket_spec (v : Q) : cell :=
  if Qlt_bool v 0 then CNull
  else if Qlt_bool v 13 then CStr "New"
  else if Qlt_bool v 37 then CStr "Regular"
  else if Qlt_bool v 61 then CStr "Loyal"
  else CStr "Champion".

Definition charge_segment_spec (v : Q) : cell :=
  if Qle_bool v 0 then CNull
  else if Qle_bool v 30 then CStr "Low"
  else if Qle_bool v 70 then CStr "Medium"
  else CStr "High".

(** The [TotalCharges] values that read as numbers, as the specification
    words the imputation: the mean is taken over these and nothing else. *)
Definition valid_values (parse : string -> option Q) (c : column) : list Q :=
  flat_map (fun x =>
              match x with
              | CNum q => [q]
              | CStr s => match parse s with Some q => [q] | None => [] end
              | CNull => []
              end) c.

Definition mean_of (l : list Q) : cell :=
  match l with
  | [] => CNull
  | _ => CNum (Qsum l / inject_Z (Z.of_nat (List.length l)))
  end.

(** The columns [transform_data] reads or drops. *)
Definition required_columns : list string :=
  ["TotalCharges"; "tenure"; "MonthlyCharges"; "InternetService";
   "MultipleLines"; "Contract"; "customerID"; "gender"].

(** A column [pd.read_csv] typed as numeric: it holds no string. *)
Definition numeric_column (df : DataFrame) (name : string) : bool :=
  match getcol df name with
  | Ok c => negb (existsb is_str c)
  | Raise _ => false
  end.

(** A raw frame [transform_data] accepts. *)
Definition readable_raw (df : DataFrame) : bool :=
  forallb (has_col df) required_columns
  && numeric_column df "tenure" && numeric_column df "MonthlyCharges".

(** The staged frame of [raw_example]. *)
Definition staged_example : DataFrame :=
  Eval vm_compute in
    match transform_data decimal_literal raw_example with
    | Ok df => df
    | Raise _ => []
    end.

(** The contract-code column is absent, or holds nothing but blanks and
    finite numbers: no text, and (a [CNum] being finite) no infinity. *)
Definition finite_codes (df : DataFrame) : bool :=
  match getcol df "contract_type_code" with
  | Ok c => negb (existsb is_str c)
  | Raise _ => true
  end.

(** A staged file edited by hand: one code is 1.5. *)
Definition fractional_codes : DataFrame :=
  [("contract_type_code", [CNum 0; CNum 1.5; CNull; CNum 2])].

(** A staged file whose code column holds text. *)
Definition text_codes : DataFrame :=
  [("contract_type_code", [CStr "0"; CStr "Bogus"])].

Definition is_list_of_dicts (v : pyval) : bool :=
  match v with
  | PList l => forallb is_dict l
  | _ => false
  end.

Definition is_some {A : Type} (o : option A) : bool :=
  match o with Some _ => true | None => false end.

(** The response shapes as the specification lists them: an object with a
    [data] list, a dict with a [data] list, a list or tuple that contains a
    list of dicts or consists of dicts, an object whose [json()] yields a
    dict with a [data] list. *)
Definition recognized_spec (res : pyval) : bool :=
  match res with
  | PObj (Some (PList _)) _ => true
  | PObj _ (JsonReturns j) => is_some (dict_data_list j)
  | PDict _ => is_some (dict_data_list res)
  | PList items | PTuple items =>
      existsb is_list_of_dicts items
      || (negb (is_empty items) && forallb is_dict items)
  | _ => false
  end.

(** The shapes the extractor tells apart: as above, except that a list or
    tuple without a list of dicts counts as soon as its first item is a
    dict. *)
Definition recognized (res : pyval) : bool :=
  match res with
  | PObj (Some (PList _)) _ => true
  | PObj _ (JsonReturns j) => is_some (dict_data_list j)
  | PDict _ => is_some (dict_data_list res)
  | PList items | PTuple items =>
      existsb is_list_of_dicts items
      || match items with PDict _ :: _ => true | _ => false end
  | _ => false
  end.

(** A list whose first item is a record and whose second is not. *)
Definition mixed_response : pyval :=
  PList [PDict [("id", PNum 1)]; PNum 7].

Definition is_summary (a : artifact) : bool :=
  match a with AnalysisSummary _ _ => true | _ => false end.

(** A remote table in which nobody churned. *)
Definition loyal_table : DataFrame :=
  [ ("Churn", [CStr "No"; CStr "No"]);
    ("tenure_group", [CStr "New"; CStr "Loyal"]) ].

(** ** Further definitions used by the properties of the stages *)

(** [df.columns] after [df[n] = col]. *)
Definition add_name (names : list string) (n : string) : list string :=
  if str_in n names then names else names ++ [n].

(** The columns [transform_data] derives, in the order it assigns them. *)
Definition derived_columns : list string :=
  ["tenure_group"; "monthly_charge_segment"; "has_internet_service";
   "is_multi_line_user"; "contract_type_code"].

(** The header of the staged file, from the header of the raw file. *)
Definition staged_names (raw_names : list string) : list string :=
  map str_lower
      (filter (fun n => negb (String.eqb n "gender"))
         (filter (fun n => negb (String.eqb n "customerID"))
            (fold_left add_name derived_columns raw_names))).

(** [pd.cut] on any float that is not [NaN], an infinity included: the
    comparisons of [searchsorted] against the bin edges, with
    [-inf < x < inf] for every finite [x] and [inf <= inf]. *)
Definition edge_ltb (b : bound) (v : number) : bool :=
  match v with
  | Finite q => bound_ltb b q
  | Infinite false => match b with Fin _ => true | Inf => false end
  | Infinite true => false
  end.

Definition edge_leb (b : bound) (v : number) : bool :=
  match v with
  | Finite q => bound_leb b q
  | Infinite false => true
  | Infinite true => false
  end.

Fixpoint searchsorted_number (side_right : bool) (bins : list bound)
    (v : number) : nat :=
  match bins with
  | [] => 0
  | b :: bs =>
      if (if side_right then edge_leb b v else edge_ltb b v)
      then S (searchsorted_number side_right bs v)
      else 0
  end.

Definition cut_number (bins : list bound) (labels : list string) (right : bool)
    (v : number) : cell :=
  let ids := searchsorted_number (negb right) bins v in
  if (ids =? List.length bins)%nat || (ids =? 0)%nat then CNull
  else match nth_error labels (ids - 1) with
       | Some l => CStr l
       | None => CNull
       end.

(** No column of the frame is spelled like [name] up to case, except
    [name] itself. *)
Definition no_case_clash (df : DataFrame) (name : string) : Prop :=
  forall n, In n (columns df) -> str_lower n = name -> n = name.

(** [fetch_table], lines 103-123: what it does to the frame built from the
    extracted rows.  The monthly and total charges are coerced to numbers
    and the churn column is trimmed and lower-cased. *)
Definition coerce_column (parse : string -> option Q) (df : DataFrame)
    (col : option string) : DataFrame :=
  match col with
  | Some c => setcol df c (to_numeric parse (col_or_empty df c))
  | None => df
  end.

Definition normalize_text (show : Q -> string) (c : column) : column :=
  map (fun x => CStr (str_lower (str_strip (astype_str show x)))) c.

Definition fetch_table_normalize (parse : string -> option Q)
    (show : Q -> string) (df : DataFrame) : DataFrame :=
  if df_empty df then df
  else
    let monthly_col :=
      _find_col df ["monthlycharges"; "monthly_charges"; "monthlycharges";
                    "monthlycharge"; "monthly_charge"] in
    let total_col :=
      _find_col df ["totalcharges"; "total_charges"; "totalcharges";
                    "totalcharge"] in
    let df := coerce_column parse df monthly_col in
    let df := coerce_column parse df total_col in
    match _find_col df ["churn"] with
    | Some c => setcol df c (normalize_text show (col_or_empty df c))
    | None => df
    end.

(** Equality of cells up to the value of a number. *)
Definition cell_equiv (a b : cell) : Prop := cell_eqb a b = true.

(** The number of cells of a column equal to [v]. *)
Definition occurrences (l : list cell) (v : cell) : nat :=
  List.length (filter (cell_eqb v) l).

(** [raw_example] without its [customerID] and [gender] columns. *)
Definition raw_without_ids : DataFrame :=
  filter (fun nc => negb (str_in (fst nc) ["customerID"; "gender"]))
         raw_example.

(** * Properties *)

(** ** Results and comparisons *)

Lemma bind_Ok {A B : Type} (m : result A) (k : A -> result B) (b : B) :
  bind m k = Ok b -> exists a, m = Ok a /\ k a = Ok b.
Proof.
  destruct m as [a|e]; simpl; intros H; [eauto | discriminate].
Qed.

Ltac inv_bind H :=
  let a := fresh "a" in
  let Ha := fresh "Ha" in
  apply bind_Ok in H; destruct H as (a & Ha & H).

Lemma Qlt_bool_iff (x y : Q) : Qlt_bool x y = true <-> x < y.
Proof.
  unfold Qlt_bool. rewrite negb_true_iff. split.
  - intros H. apply Qnot_le_lt. intros Hle.
    apply Qle_bool_iff in Hle. congruence.
  - intros H. destruct (Qle_bool y x) eqn:E; [|reflexivity].
    apply Qle_bool_iff in E. exfalso. exact (Qlt_not_le _ _ H E).
Qed.

(** ** Frames *)

Lemma getcol_In (df : DataFrame) (n : string) (c : column) :
  getcol df n = Ok c -> In (n, c) df.
Proof.
  induction df as [|[m d] df IH]; simpl; [discriminate|].
  destruct (String.eqb m n) eqn:E.
  - apply String.eqb_eq in E. intros [= ->]. subst. now left.
  - intros H. right. now apply IH.
Qed.

Lemma getcol_setcol_same (df : DataFrame) (n : string) (c : column) :
  getcol (setcol df n c) n = Ok c.
Proof.
  induction df as [|[m d] df IH]; simpl.
  - now rewrite String.eqb_refl.
  - destruct (String.eqb m n) eqn:E; simpl; rewrite E; auto.
Qed.

Lemma getcol_setcol_other (df : DataFrame) (n k : string) (c : column) :
  String.eqb k n = false -> getcol (setcol df n c) k = getcol df k.
Proof.
  intros Hk. induction df as [|[m d] df IH]; simpl.
  - rewrite String.eqb_sym. now rewrite Hk.
  - destruct (String.eqb m n) eqn:E; simpl.
    + apply String.eqb_eq in E. subst m.
      rewrite String.eqb_sym. now rewrite Hk.
    + destruct (String.eqb m k); auto.
Qed.

Lemma getcol_fillna_dict_same (df : DataFrame) (k : string) (v : cell) :
  getcol (fillna_dict df k v) k = (c <- getcol df k ;; Ok (fillna v c)).
Proof.
  induction df as [|[m d] df IH]; simpl; [reflexivity|].
  destruct (String.eqb m k) eqn:E; simpl; rewrite E; auto.
Qed.

Lemma getcol_fillna_dict_other (df : DataFrame) (k n : string) (v : cell) :
  String.eqb n k = false -> getcol (fillna_dict df k v) n = getcol df n.
Proof.
  intros Hn. induction df as [|[m d] df IH]; simpl; [reflexivity|].
  destruct (String.eqb m k) eqn:E; simpl.
  - apply String.eqb_eq in E. subst m.
    rewrite String.eqb_sym, Hn. exact IH.
  - destruct (String.eqb m n); auto.
Qed.

Lemma getcol_filter_other (df : DataFrame) (l n : string) :
  String.eqb n l = false ->
  getcol (filter (fun nc => negb (String.eqb (fst nc) l)) df) n = getcol df n.
Proof.
  intros Hn. induction df as [|[m d] df IH]; simpl; [reflexivity|].
  destruct (String.eqb m l) eqn:E; simpl.
  - apply String.eqb_eq in E. subst m.
    rewrite String.eqb_sym, Hn. exact IH.
  - destruct (String.eqb m n); auto.
Qed.

Lemma drop_two (df df' : DataFrame) (a b : string) :
  drop df [a; b] = Ok df' ->
  df' = filter (fun nc => negb (String.eqb (fst nc) b))
               (filter (fun nc => negb (String.eqb (fst nc) a)) df).
Proof.
  unfold drop. destruct (absent_labels df [a; b]); [|discriminate].
  now intros [= <-].
Qed.

Lemma absent_labels_nil (df : DataFrame) (labels : list string) :
  absent_labels df labels = [] <-> forall l, In l labels -> has_col df l = true.
Proof.
  unfold absent_labels. induction labels as [|l ls IH]; simpl.
  - split; [tauto | reflexivity].
  - destruct (has_col df l) eqn:E; simpl.
    + rewrite IH. split.
      * intros H x [<-|Hx]; auto.
      * intros H x Hx. apply H. auto.
    + split; [discriminate|]. intros H. specialize (H l (or_introl eq_refl)).
      congruence.
Qed.

Lemma drop_present (df : DataFrame) (labels : list string) :
  (forall l, In l labels -> has_col df l = true) ->
  drop df labels = Ok (drop_columns df labels).
Proof.
  intros H. apply absent_labels_nil in H. unfold drop. now rewrite H.
Qed.

Lemma drop_Ok_present (df df' : DataFrame) (labels : list string) :
  drop df labels = Ok df' -> forall l, In l labels -> has_col df l = true.
Proof.
  unfold drop. destruct (absent_labels df labels) eqn:E; [|discriminate].
  intros _. now apply absent_labels_nil.
Qed.

Lemma In_lower_columns (df : DataFrame) (n : string) (c : column) :
  In (n, c) df -> In (str_lower n, c) (lower_columns df).
Proof.
  intros H. unfold lower_columns.
  apply (in_map (fun nc => (str_lower (fst nc), snd nc))) in H. exact H.
Qed.

Lemma height_getcol (df : DataFrame) (n : nat) (k : string) (c : column) :
  height df n -> getcol df k = Ok c -> List.length c = n.
Proof.
  intros Hh Hg. apply getcol_In in Hg.
  unfold height in Hh. rewrite Forall_forall in Hh.
  exact (Hh _ Hg).
Qed.

Lemma height_setcol (df : DataFrame) (n : nat) (k : string) (c : column) :
  height df n -> List.length c = n -> height (setcol df k c) n.
Proof.
  unfold height. intros Hh Hc.
  induction df as [|[m d] df IH]; simpl.
  - constructor; auto.
  - inversion Hh; subst.
    destruct (String.eqb m k); constructor; auto.
Qed.

Lemma height_fillna_dict (df : DataFrame) (n : nat) (k : string) (v : cell) :
  height df n -> height (fillna_dict df k v) n.
Proof.
  unfold height, fillna_dict. intros Hh.
  induction Hh as [|[m d] df Hd _ IH]; simpl; constructor; auto.
  destruct (String.eqb m k); simpl in *; auto.
  unfold fillna. now rewrite length_map.
Qed.

Lemma height_filter (df : DataFrame) (n : nat) (f : string * column -> bool) :
  height df n -> height (filter f df) n.
Proof.
  unfold height. intros Hh.
  induction Hh as [|x df Hx _ IH]; simpl; [constructor|].
  destruct (f x); auto.
Qed.

Lemma height_lower_columns (df : DataFrame) (n : nat) :
  height df n -> height (lower_columns df) n.
Proof.
  unfold height, lower_columns. intros Hh.
  induction Hh; simpl; constructor; auto.
Qed.

Lemma height_nrows (df : DataFrame) (n : nat) :
  height df n -> df <> [] -> nrows df = n.
Proof.
  intros Hh Hne. destruct df as [|[m d] df]; [congruence|].
  inversion Hh; subst. reflexivity.
Qed.

(** ** [pd.cut] *)

Lemma cut_cells bins labels right (c out : column) :
  cut bins labels right c = Ok out ->
  Forall2 (fun x y => cut_cell bins labels right x = Ok y) c out.
Proof.
  revert out. induction c as [|x xs IH]; simpl; intros out H.
  - injection H as <-. constructor.
  - inv_bind H. inv_bind H. injection H as <-.
    constructor; auto.
Qed.

Lemma cut_length bins labels right (c out : column) :
  cut bins labels right c = Ok out -> List.length out = List.length c.
Proof.
  intros H. apply cut_cells in H.
  symmetry. exact (Forall2_length H).
Qed.

Lemma cut_no_strings bins labels right (c : column) :
  existsb is_str c = false -> exists out, cut bins labels right c = Ok out.
Proof.
  induction c as [|x xs IH]; simpl; intros H.
  - eauto.
  - apply orb_false_iff in H. destruct H as [Hx Hxs].
    destruct (IH Hxs) as [ys Hys]. rewrite Hys.
    destruct x as [|v|s]; simpl in *; try discriminate; eauto.
    destruct (_ || _); simpl; [eauto|].
    destruct (nth_error labels _); simpl; eauto.
Qed.

(** ** [transform_data], step by step *)

(** Looking a column up under assignments to, and removals of, columns of
    another name. *)
Ltac getcol_norm :=
  repeat first
    [ rewrite getcol_filter_other by reflexivity
    | rewrite getcol_setcol_other by reflexivity
    | rewrite getcol_fillna_dict_other by reflexivity ].

Ltac getcol_norm_in H :=
  repeat first
    [ rewrite getcol_filter_other in H by reflexivity
    | rewrite getcol_setcol_other in H by reflexivity
    | rewrite getcol_fillna_dict_other in H by reflexivity ].

(** What a successful run read from the raw frame, and where each of those
    columns sits in the frame just before the names are lower-cased. *)
Lemma transform_data_inv parse (raw staged : DataFrame) :
  transform_data parse raw = Ok staged ->
  exists tc ten mc isv ml ct tg seg post,
    getcol raw "TotalCharges" = Ok tc /\
    getcol raw "tenure" = Ok ten /\
    getcol raw "MonthlyCharges" = Ok mc /\
    getcol raw "InternetService" = Ok isv /\
    getcol raw "MultipleLines" = Ok ml /\
    getcol raw "Contract" = Ok ct /\
    cut tenure_bins tenure_labels false ten = Ok tg /\
    cut charge_bins charge_labels true mc = Ok seg /\
    staged = lower_columns post /\
    getcol post "TotalCharges" = Ok (impute_total_charges parse tc) /\
    getcol post "tenure" = Ok ten /\
    getcol post "MonthlyCharges" = Ok mc /\
    getcol post "tenure_group" = Ok tg /\
    getcol post "monthly_charge_segment" = Ok seg /\
    getcol post "has_internet_service" = Ok (series_map internet_service_map isv) /\
    getcol post "is_multi_line_user" = Ok (series_map multiple_lines_map ml) /\
    getcol post "contract_type_code" = Ok (series_map contract_map ct) /\
    (forall n, height raw n -> height post n).
Proof.
  unfold transform_data. intros H.
  inv_bind H. rename a into tc, Ha into Htc.
  inv_bind H. rewrite getcol_setcol_same in Ha. injection Ha as <-.
  inv_bind H. rename a into ten, Ha into Hten.
  inv_bind H. rename a into tg, Ha into Htg.
  inv_bind H. rename a into mc, Ha into Hmc.
  inv_bind H. rename a into seg, Ha into Hseg.
  inv_bind H. rename a into isv, Ha into Hisv.
  inv_bind H. rename a into ml, Ha into Hml.
  inv_bind H. rename a into ct, Ha into Hct.
  inv_bind H. rename a into post, Ha into Hdrop.
  injection H as <-.
  apply drop_two in Hdrop.
  getcol_norm_in Hten. getcol_norm_in Hmc. getcol_norm_in Hisv.
  getcol_norm_in Hml. getcol_norm_in Hct.
  exists tc, ten, mc, isv, ml, ct, tg, seg, post.
  repeat match goal with |- _ /\ _ => split end; auto; subst post.
  - getcol_norm.
    rewrite getcol_fillna_dict_same, getcol_setcol_same. reflexivity.
  - getcol_norm. exact Hten.
  - getcol_norm. exact Hmc.
  - getcol_norm. apply getcol_setcol_same.
  - getcol_norm. apply getcol_setcol_same.
  - getcol_norm. apply getcol_setcol_same.
  - getcol_norm. apply getcol_setcol_same.
  - getcol_norm. apply getcol_setcol_same.
  - intros n Hn.
    assert (Ltc : List.length tc = n) by eauto using height_getcol.
    assert (Lten : List.length ten = n) by eauto using height_getcol.
    assert (Lmc : List.length mc = n) by eauto using height_getcol.
    assert (Lisv : List.length isv = n) by eauto using height_getcol.
    assert (Lml : List.length ml = n) by eauto using height_getcol.
    assert (Lct : List.length ct = n) by eauto using height_getcol.
    apply cut_length in Htg, Hseg.
    repeat apply height_filter.
    repeat (apply height_setcol;
            [| unfold series_map, to_numeric; rewrite ?length_map; congruence]).
    apply height_fillna_dict.
    apply height_setcol; auto.
    unfold to_numeric. rewrite length_map. exact Ltc.
Qed.

(** The columns of the staged frame, in terms of the raw ones. *)
Lemma transform_data_columns parse (raw staged : DataFrame) :
  transform_data parse raw = Ok staged ->
  exists tc ten mc ct tg seg,
    getcol raw "TotalCharges" = Ok tc /\
    getcol raw "tenure" = Ok ten /\
    getcol raw "MonthlyCharges" = Ok mc /\
    getcol raw "Contract" = Ok ct /\
    cut tenure_bins tenure_labels false ten = Ok tg /\
    cut charge_bins charge_labels true mc = Ok seg /\
    In ("totalcharges", impute_total_charges parse tc) staged /\
    In ("tenure", ten) staged /\
    In ("monthlycharges", mc) staged /\
    In ("tenure_group", tg) staged /\
    In ("monthly_charge_segment", seg) staged /\
    In ("contract_type_code", series_map contract_map ct) staged /\
    (forall n, height raw n -> height staged n).
Proof.
  intros H. apply transform_data_inv in H.
  destruct H as (tc & ten & mc & isv & ml & ct & tg & seg & post & Htc & Hten
                 & Hmc & _ & _ & Hct & Htg & Hseg & -> & P1 & P2 & P3 & P4 & P5
                 & _ & _ & P8 & Hh).
  exists tc, ten, mc, ct, tg, seg.
  repeat match goal with |- _ /\ _ => split end; auto.
  - exact (In_lower_columns _ _ _ (getcol_In _ _ _ P1)).
  - exact (In_lower_columns _ _ _ (getcol_In _ _ _ P2)).
  - exact (In_lower_columns _ _ _ (getcol_In _ _ _ P3)).
  - exact (In_lower_columns _ _ _ (getcol_In _ _ _ P4)).
  - exact (In_lower_columns _ _ _ (getcol_In _ _ _ P5)).
  - exact (In_lower_columns _ _ _ (getcol_In _ _ _ P8)).
  - intros n Hn. apply height_lower_columns. auto.
Qed.

(** ** Imputation *)

Lemma numbers_to_numeric parse (c : column) :
  numbers (to_numeric parse c) = valid_values parse c.
Proof.
  unfold numbers, to_numeric, valid_values.
  induction c as [|x xs IH]; simpl; [reflexivity|].
  rewrite IH. destruct x as [|q|s]; simpl; auto.
  destruct (parse s); reflexivity.
Qed.

Lemma mean_to_numeric parse (c : column) :
  mean (to_numeric parse c) = mean_of (valid_values parse c).
Proof.
  unfold mean, mean_of. rewrite numbers_to_numeric.
  destruct (valid_values parse c); reflexivity.
Qed.

Lemma fillna_no_nulls (v : cell) (c : column) :
  isna v = false -> null_count (fillna v c) = 0%nat.
Proof.
  intros Hv. unfold null_count, fillna.
  induction c as [|x xs IH]; simpl; [reflexivity|].
  destruct x; simpl; try rewrite Hv; simpl; exact IH.
Qed.

Lemma fillna_null_same (c : column) : fillna CNull c = c.
Proof.
  unfold fillna. induction c as [|x xs IH]; simpl; [reflexivity|].
  rewrite IH. destruct x; reflexivity.
Qed.

Lemma impute_cells parse (c : column) :
  Forall2
    (fun x y =>
       match x with
       | CNum q => y = CNum q
       | CStr s =>
           match parse s with
           | Some q => y = CNum q
           | None => y = mean_of (valid_values parse c)
           end
       | CNull => y = mean_of (valid_values parse c)
       end)
    c (impute_total_charges parse c).
Proof.
  unfold impute_total_charges. rewrite mean_to_numeric.
  generalize (mean_of (valid_values parse c)) as m. intros m.
  unfold fillna, to_numeric. rewrite map_map.
  induction c as [|x xs IH]; simpl; constructor; auto.
  destruct x as [|q|s]; simpl; auto.
  destruct (parse s); reflexivity.
Qed.

Lemma impute_no_nulls parse (c : column) :
  valid_values parse c <> [] ->
  null_count (impute_total_charges parse c) = 0%nat.
Proof.
  intros Hv. unfold impute_total_charges.
  apply fillna_no_nulls. rewrite mean_to_numeric.
  destruct (valid_values parse c); [congruence | reflexivity].
Qed.

(** ** When [transform_data] returns *)

Lemma has_col_getcol (df : DataFrame) (k : string) :
  has_col df k = true <-> exists c, getcol df k = Ok c.
Proof.
  unfold has_col, str_in, columns.
  induction df as [|[m d] df IH]; simpl.
  - split; [discriminate | intros [c H]; discriminate].
  - rewrite (String.eqb_sym k m). destruct (String.eqb m k); simpl.
    + split; eauto.
    + exact IH.
Qed.

Lemma numeric_column_getcol (df : DataFrame) (k : string) :
  numeric_column df k = true ->
  exists c, getcol df k = Ok c /\ existsb is_str c = false.
Proof.
  unfold numeric_column. destruct (getcol df k) as [c|e]; [|discriminate].
  intros H. apply negb_true_iff in H. eauto.
Qed.

Lemma transform_data_total parse (raw : DataFrame) :
  readable_raw raw = true -> exists staged, transform_data parse raw = Ok staged.
Proof.
  unfold readable_raw. intros H.
  apply andb_true_iff in H. destruct H as [H Hmc].
  apply andb_true_iff in H. destruct H as [H Hten].
  apply numeric_column_getcol in Hten, Hmc.
  destruct Hten as (ten & Hten & Sten), Hmc as (mc & Hmc & Smc).
  rewrite forallb_forall in H.
  assert (Hcol : forall k, In k required_columns -> exists c, getcol raw k = Ok c).
  { intros k Hk. apply has_col_getcol. auto. }
  destruct (Hcol "TotalCharges") as [tc Htc]; [simpl; tauto|].
  destruct (Hcol "InternetService") as [isv Hisv]; [simpl; tauto|].
  destruct (Hcol "MultipleLines") as [ml Hml]; [simpl; tauto|].
  destruct (Hcol "Contract") as [ct Hct]; [simpl; tauto|].
  destruct (Hcol "customerID") as [cid Hcid]; [simpl; tauto|].
  destruct (Hcol "gender") as [gen Hgen]; [simpl; tauto|].
  destruct (cut_no_strings tenure_bins tenure_labels false ten Sten) as [tg Htg].
  destruct (cut_no_strings charge_bins charge_labels true mc Smc) as [seg Hseg].
  unfold transform_data.
  rewrite Htc. cbn [bind]. rewrite getcol_setcol_same. cbn [bind].
  getcol_norm. rewrite Hten. cbn [bind]. rewrite Htg. cbn [bind].
  getcol_norm. rewrite Hmc. cbn [bind]. rewrite Hseg. cbn [bind].
  getcol_norm. rewrite Hisv. cbn [bind].
  getcol_norm. rewrite Hml. cbn [bind].
  getcol_norm. rewrite Hct. cbn [bind].
  rewrite drop_present; [cbn [bind]; eauto|].
  intros l [<-|[<-|[]]]; apply has_col_getcol;
    [exists cid | exists gen]; getcol_norm; assumption.
Qed.

(** ** The transform stage: claims *)

(** C3 (as stated, refuted): after [transform_data] the three core numeric
    columns would hold no missing value.  The raw frame [raw_example] has a
    blank tenure, and it is still blank in the staged frame. *)
Lemma core_columns_not_null_counterexample :
  ~ (forall raw staged,
        transform_data decimal_literal raw = Ok staged ->
        forall name c,
          In name ["tenure"; "monthlycharges"; "totalcharges"] ->
          In (name, c) staged -> null_count c = 0%nat).
Proof.
  intros H.
  assert (E : transform_data decimal_literal raw_example = Ok staged_example)
    by (vm_compute; reflexivity).
  specialize (H raw_example staged_example E "tenure" [CNum 0; CNull; CNum 61]).
  assert (N : null_count [CNum 0; CNull; CNum 61] = 0%nat).
  { apply H; simpl; auto. }
  discriminate N.
Qed.

(** C3 (amended): when [transform_data] completes, the staged total-charges
    column is the imputed raw column and holds no missing value as soon as
    one raw value reads as a number; the tenure and monthly-charges columns
    are staged exactly as they were read, missing values included. *)
Theorem staged_core_columns parse (raw staged : DataFrame) :
  transform_data parse raw = Ok staged ->
  exists tc ten mc,
    getcol raw "TotalCharges" = Ok tc /\
    getcol raw "tenure" = Ok ten /\
    getcol raw "MonthlyCharges" = Ok mc /\
    In ("totalcharges", impute_total_charges parse tc) staged /\
    In ("tenure", ten) staged /\
    In ("monthlycharges", mc) staged /\
    (valid_values parse tc <> [] ->
     null_count (impute_total_charges parse tc) = 0%nat).
Proof.
  intros H. apply transform_data_columns in H.
  destruct H as (tc & ten & mc & ct & tg & seg & Htc & Hten & Hmc & _ & _ & _
                 & I1 & I2 & I3 & _).
  exists tc, ten, mc. repeat split; auto.
  apply impute_no_nulls.
Qed.

Lemma staged_core_columns_witness :
  exists tc ten mc,
    getcol raw_example "TotalCharges" = Ok tc /\
    getcol raw_example "tenure" = Ok ten /\
    getcol raw_example "MonthlyCharges" = Ok mc /\
    In ("totalcharges", impute_total_charges decimal_literal tc) staged_example /\
    In ("tenure", ten) staged_example /\
    In ("monthlycharges", mc) staged_example /\
    (valid_values decimal_literal tc <> [] ->
     null_count (impute_total_charges decimal_literal tc) = 0%nat).
Proof.
  apply (staged_core_columns decimal_literal raw_example staged_example).
  vm_compute. reflexivity.
Defined.

(** C4: in [transform_data], a [TotalCharges] value that does not read as a
    number becomes missing, and every missing value is replaced by the mean
    of the values that did read as numbers (taken before anything is
    filled in), while those values are kept as they are.  For the column
    ["", "50", "70"] the blank becomes 60 and no missing value is left. *)
Theorem total_charges_imputation parse (raw staged : DataFrame) :
  transform_data parse raw = Ok staged ->
  exists tc,
    getcol raw "TotalCharges" = Ok tc /\
    In ("totalcharges", impute_total_charges parse tc) staged /\
    Forall2
      (fun x y =>
         match x with
         | CNum q => y = CNum q
         | CStr s =>
             match parse s with
             | Some q => y = CNum q
             | None => y = mean_of (valid_values parse tc)
             end
         | CNull => y = mean_of (valid_values parse tc)
         end)
      tc (impute_total_charges parse tc) /\
    (exists m,
        impute_total_charges parse [CNull; CNum 50; CNum 70]
        = [CNum m; CNum 50; CNum 70] /\ m == 60) /\
    (exists m,
        impute_total_charges decimal_literal [CStr ""; CStr "50"; CStr "70"]
        = [CNum m; CNum 50; CNum 70] /\ m == 60) /\
    null_count (impute_total_charges parse [CNull; CNum 50; CNum 70]) = 0%nat.
Proof.
  intros H. apply transform_data_columns in H.
  destruct H as (tc & ten & mc & ct & tg & seg & Htc & _ & _ & _ & _ & _
                 & I1 & _).
  exists tc. repeat split; auto.
  - apply impute_cells.
  - exists (120 # 2). split; reflexivity.
  - exists (120 # 2). split; reflexivity.
Qed.

Lemma total_charges_imputation_witness :
  exists tc,
    getcol raw_example "TotalCharges" = Ok tc /\
    In ("totalcharges", impute_total_charges decimal_literal tc) staged_example /\
    Forall2
      (fun x y =>
         match x with
         | CNum q => y = CNum q
         | CStr s =>
             match decimal_literal s with
             | Some q => y = CNum q
             | None => y = mean_of (valid_values decimal_literal tc)
             end
         | CNull => y = mean_of (valid_values decimal_literal tc)
         end)
      tc (impute_total_charges decimal_literal tc) /\
    (exists m,
        impute_total_charges decimal_literal [CNull; CNum 50; CNum 70]
        = [CNum m; CNum 50; CNum 70] /\ m == 60) /\
    (exists m,
        impute_total_charges decimal_literal [CStr ""; CStr "50"; CStr "70"]
        = [CNum m; CNum 50; CNum 70] /\ m == 60) /\
    null_count (impute_total_charges decimal_literal [CNull; CNum 50; CNum 70])
    = 0%nat.
Proof.
  apply (total_charges_imputation decimal_literal raw_example staged_example).
  vm_compute. reflexivity.
Defined.

Lemma tenure_cut_spec (v : Q) :
  cut_cell tenure_bins tenure_labels false (CNum v) = Ok (tenure_bucket_spec v).
Proof.
  unfold cut_cell, tenure_bucket_spec. simpl. unfold Qlt_bool.
  destruct (Qle_bool 0 v); simpl; [|reflexivity].
  destruct (Qle_bool 13 v); simpl; [|reflexivity].
  destruct (Qle_bool 37 v); simpl; [|reflexivity].
  destruct (Qle_bool 61 v); reflexivity.
Qed.

Lemma charge_cut_spec (v : Q) :
  cut_cell charge_bins charge_labels true (CNum v) = Ok (charge_segment_spec v).
Proof.
  unfold cut_cell, charge_segment_spec. simpl. unfold Qlt_bool.
  destruct (Qle_bool v 0); simpl; [reflexivity|].
  destruct (Qle_bool v 30); simpl; [reflexivity|].
  destruct (Qle_bool v 70); reflexivity.
Qed.

Lemma Qle_bool_false (x y : Q) : Qle_bool x y = false <-> y < x.
Proof.
  rewrite <- Qlt_bool_iff. unfold Qlt_bool.
  destruct (Qle_bool x y); simpl; split; congruence.
Qed.

(** The two partitions read as intervals. *)
Lemma tenure_bucket_intervals (v : Q) :
  (v < 0 -> tenure_bucket_spec v = CNull) /\
  (0 <= v -> v < 13 -> tenure_bucket_spec v = CStr "New") /\
  (13 <= v -> v < 37 -> tenure_bucket_spec v = CStr "Regular") /\
  (37 <= v -> v < 61 -> tenure_bucket_spec v = CStr "Loyal") /\
  (61 <= v -> tenure_bucket_spec v = CStr "Champion").
Proof.
  unfold tenure_bucket_spec, Qlt_bool.
  destruct (Qle_bool 0 v) eqn:E0; [apply Qle_bool_iff in E0 | apply Qle_bool_false in E0];
  destruct (Qle_bool 13 v) eqn:E1; [apply Qle_bool_iff in E1 | apply Qle_bool_false in E1 | apply Qle_bool_iff in E1 | apply Qle_bool_false in E1];
  destruct (Qle_bool 37 v) eqn:E2;
    try apply Qle_bool_iff in E2; try apply Qle_bool_false in E2;
  destruct (Qle_bool 61 v) eqn:E3;
    try apply Qle_bool_iff in E3; try apply Qle_bool_false in E3;
  simpl; repeat split; intros; try reflexivity; exfalso; lra.
Qed.

Lemma charge_segment_intervals (v : Q) :
  (v <= 0 -> charge_segment_spec v = CNull) /\
  (0 < v -> v <= 30 -> charge_segment_spec v = CStr "Low") /\
  (30 < v -> v <= 70 -> charge_segment_spec v = CStr "Medium") /\
  (70 < v -> charge_segment_spec v = CStr "High").
Proof.
  unfold charge_segment_spec.
  destruct (Qle_bool v 0) eqn:E0;
    try apply Qle_bool_iff in E0; try apply Qle_bool_false in E0;
  destruct (Qle_bool v 30) eqn:E1;
    try apply Qle_bool_iff in E1; try apply Qle_bool_false in E1;
  destruct (Qle_bool v 70) eqn:E2;
    try apply Qle_bool_iff in E2; try apply Qle_bool_false in E2;
  simpl; repeat split; intros; try reflexivity; exfalso; lra.
Qed.

(** C5: [transform_data] buckets tenure at the edges 0, 13, 37, 61 (no
    upper limit), each bucket holding its lower edge and not its upper one,
    and buckets the monthly charge at 0, 30, 70 (no upper limit), each
    segment holding its upper edge and not its lower one: tenure 13 is
    "Regular", 12.999 "New", 61 "Champion", 0 "New"; charge 30 is "Low",
    30.01 "Medium", 70 "Medium", 70.01 "High".  It stages a frame for every
    raw frame it can read, and the staged [tenure_group] and
    [monthly_charge_segment] columns are these buckets of the raw tenure
    and monthly charges. *)
Theorem bucket_edges :
  (forall v, cut_cell tenure_bins tenure_labels false (CNum v)
             = Ok (tenure_bucket_spec v)) /\
  (forall v, cut_cell charge_bins charge_labels true (CNum v)
             = Ok (charge_segment_spec v)) /\
  cut_cell tenure_bins tenure_labels false (CNum 13) = Ok (CStr "Regular") /\
  cut_cell tenure_bins tenure_labels false (CNum 12.999) = Ok (CStr "New") /\
  cut_cell tenure_bins tenure_labels false (CNum 61) = Ok (CStr "Champion") /\
  cut_cell tenure_bins tenure_labels false (CNum 0) = Ok (CStr "New") /\
  cut_cell charge_bins charge_labels true (CNum 30) = Ok (CStr "Low") /\
  cut_cell charge_bins charge_labels true (CNum 30.01) = Ok (CStr "Medium") /\
  cut_cell charge_bins charge_labels true (CNum 70) = Ok (CStr "Medium") /\
  cut_cell charge_bins charge_labels true (CNum 70.01) = Ok (CStr "High") /\
  (forall parse raw,
      (readable_raw raw = true ->
       exists staged, transform_data parse raw = Ok staged) /\
      (forall staged,
          transform_data parse raw = Ok staged ->
          exists ten mc tg seg,
            getcol raw "tenure" = Ok ten /\
            getcol raw "MonthlyCharges" = Ok mc /\
            In ("tenure_group", tg) staged /\
            In ("monthly_charge_segment", seg) staged /\
            Forall2 (fun x y => cut_cell tenure_bins tenure_labels false x = Ok y)
                    ten tg /\
            Forall2 (fun x y => cut_cell charge_bins charge_labels true x = Ok y)
                    mc seg)).
Proof.
  split; [exact tenure_cut_spec|].
  split; [exact charge_cut_spec|].
  repeat (split; [reflexivity|]).
  intros parse raw. split; [apply transform_data_total|].
  intros staged H. apply transform_data_columns in H.
  destruct H as (tc & ten & mc & ct & tg & seg & _ & Hten & Hmc & _ & Htg & Hseg
                 & _ & _ & _ & I4 & I5 & _).
  exists ten, mc, tg, seg. repeat split; auto using cut_cells.
Qed.

Ltac cut_row F :=
  let E := fresh "E" in
  inversion F as [|? ? ? ? E F']; subst; clear F;
  vm_compute in E; injection E as <-; rename F' into F.

Lemma bucket_edges_witness :
  (exists staged, transform_data decimal_literal raw_example = Ok staged) /\
  In ("tenure_group", [CStr "New"; CNull; CStr "Champion"]) staged_example /\
  In ("monthly_charge_segment", [CStr "Low"; CStr "Medium"; CNull])
     staged_example.
Proof.
  destruct bucket_edges as (_ & _ & _ & _ & _ & _ & _ & _ & _ & _ & H).
  destruct (H decimal_literal raw_example) as [T S].
  split; [apply T; reflexivity|].
  destruct (S staged_example eq_refl)
    as (ten & mc & tg & seg & Hten & Hmc & I1 & I2 & F1 & F2).
  vm_compute in Hten, Hmc. injection Hten as <-. injection Hmc as <-.
  cut_row F1. cut_row F1. cut_row F1. inversion F1; subst.
  cut_row F2. cut_row F2. cut_row F2. inversion F2; subst.
  split; assumption.
Defined.

(** C6: [transform_data] maps the contract type "Month-to-month" to 0,
    "One year" to 1, "Two year" to 2, and anything else, a missing value
    included, to a missing code: never to a default such as 0.  It stages
    a frame for every raw frame it can read, and the staged
    [contract_type_code] column is this map of the raw [Contract]
    column. *)
Theorem contract_code_mapping :
  map_cell contract_map (CStr "Month-to-month") = CNum 0 /\
  map_cell contract_map (CStr "One year") = CNum 1 /\
  map_cell contract_map (CStr "Two year") = CNum 2 /\
  map_cell contract_map CNull = CNull /\
  (forall x,
      x <> CStr "Month-to-month" -> x <> CStr "One year" ->
      x <> CStr "Two year" -> map_cell contract_map x = CNull) /\
  (forall parse raw,
      (readable_raw raw = true ->
       exists staged, transform_data parse raw = Ok staged) /\
      (forall staged,
          transform_data parse raw = Ok staged ->
          exists ct,
            getcol raw "Contract" = Ok ct /\
            In ("contract_type_code", map (map_cell contract_map) ct) staged)).
Proof.
  repeat (split; [reflexivity|]).
  split.
  - intros x H0 H1 H2. destruct x as [|q|s]; try reflexivity.
    unfold map_cell, contract_map. cbn [dict_get].
    destruct (String.eqb "Month-to-month" s) eqn:E0.
    { apply String.eqb_eq in E0. subst s. congruence. }
    destruct (String.eqb "One year" s) eqn:E1.
    { apply String.eqb_eq in E1. subst s. congruence. }
    destruct (String.eqb "Two year" s) eqn:E2.
    { apply String.eqb_eq in E2. subst s. congruence. }
    reflexivity.
  - intros parse raw. split; [apply transform_data_total|].
    intros staged H. apply transform_data_columns in H.
    destruct H as (tc & ten & mc & ct & tg & seg & _ & _ & _ & Hct & _ & _
                   & _ & _ & _ & _ & _ & I6 & _).
    exists ct. split; auto.
Qed.

Lemma contract_code_mapping_witness :
  (exists staged, transform_data decimal_literal raw_example = Ok staged) /\
  In ("contract_type_code", [CNum 0; CNum 2; CNull]) staged_example.
Proof.
  destruct contract_code_mapping as (_ & _ & _ & _ & _ & H).
  destruct (H decimal_literal raw_example) as [T S].
  split; [apply T; reflexivity|].
  destruct (S staged_example eq_refl) as (ct & Hct & I).
  vm_compute in Hct. injection Hct as <-. exact I.
Defined.

(** C10: [transform_data] keeps the number of rows: the staged frame has
    one row for each row of the raw frame, whatever was imputed, bucketed
    (a value outside every bucket gets a missing label), mapped or dropped;
    and it does produce a staged frame for every raw frame that has the
    columns it reads, with numeric tenure and monthly charges. *)
Theorem transform_preserves_row_count parse (raw : DataFrame) (n : nat) :
  height raw n ->
  (forall staged,
      transform_data parse raw = Ok staged ->
      height staged n /\ nrows staged = n) /\
  (readable_raw raw = true -> exists staged, transform_data parse raw = Ok staged).
Proof.
  intros Hn. split.
  - intros staged H. apply transform_data_columns in H.
    destruct H as (tc & ten & mc & ct & tg & seg & _ & _ & _ & _ & _ & _
                   & I1 & _ & _ & _ & _ & _ & Hh).
    split; [auto|].
    apply height_nrows; [auto|].
    intros ->. exact I1.
  - apply transform_data_total.
Qed.

Lemma transform_preserves_row_count_witness :
  (forall staged,
      transform_data decimal_literal raw_example = Ok staged ->
      height staged 3 /\ nrows staged = 3%nat) /\
  (readable_raw raw_example = true ->
   exists staged, transform_data decimal_literal raw_example = Ok staged).
Proof.
  apply (transform_preserves_row_count decimal_literal raw_example 3).
  unfold height, raw_example. repeat constructor.
Defined.

(** ** The response extractor *)

Lemma first_list_of_dicts_None (items : list pyval) :
  first_list_of_dicts items = None <-> existsb is_list_of_dicts items = false.
Proof.
  induction items as [|x xs IH]; simpl; [tauto|].
  destruct x; simpl; try exact IH.
  destruct (forallb is_dict items); simpl; [|exact IH].
  split; discriminate.
Qed.

Lemma first_list_of_dicts_Some (items l : list pyval) :
  first_list_of_dicts items = Some l ->
  In (PList l) items /\ forallb is_dict l = true.
Proof.
  induction items as [|x xs IH]; simpl; [discriminate|].
  intros H.
  assert (G : first_list_of_dicts xs = Some l ->
              (x = PList l \/ In (PList l) xs) /\ forallb is_dict l = true).
  { intros H'. destruct (IH H'). auto. }
  destruct x; auto.
  destruct (forallb is_dict items) eqn:E; auto.
  injection H as ->. auto.
Qed.

(** C9 (the code at the failing input): a list that starts with a record
    and goes on with a number is none of the listed shapes, so that the
    empty list is expected; the extractor tests only its first item and
    returns it whole, a result that is not a list of records. *)
Theorem extract_mixed_list_returned :
  recognized_spec mixed_response = false /\
  _extract_data_from_response mixed_response
  = [PDict [("id", PNum 1)]; PNum 7] /\
  forallb is_dict (_extract_data_from_response mixed_response) = false /\
  ~ (forall res, recognized_spec res = false ->
                 _extract_data_from_response res = []).
Proof.
  split; [reflexivity|]. split; [reflexivity|]. split; [reflexivity|].
  intros H. specialize (H mixed_response eq_refl). discriminate H.
Qed.

Lemma first_list_of_dicts_first (pre post l : list pyval) :
  existsb is_list_of_dicts pre = false -> forallb is_dict l = true ->
  first_list_of_dicts (pre ++ PList l :: post) = Some l.
Proof.
  intros Hpre Hl. induction pre as [|x xs IH]; simpl.
  - now rewrite Hl.
  - simpl in Hpre. apply orb_false_iff in Hpre. destruct Hpre as [Hx Hxs].
    destruct x; auto. simpl in Hx. rewrite Hx. auto.
Qed.

(** X20.  What the extractor returns, shape by shape.  It returns the list
    held by an object's [data] attribute, by a dict's ["data"] entry, the
    first list of dicts found in a list or tuple (the one that no list of
    dicts precedes), the whole list or tuple when it holds no list of
    dicts and its first item is a dict, and the ["data"] list of the dict
    an object's [json()] returns; every other value, a [json()] that
    raises included, gives the empty list. *)
Theorem extract_data_shapes :
  (forall d j, _extract_data_from_response (PObj (Some (PList d)) j) = d) /\
  (forall entries d,
      dict_get entries "data" = Some (PList d) ->
      _extract_data_from_response (PDict entries) = d) /\
  (forall pre l post,
      existsb is_list_of_dicts pre = false -> forallb is_dict l = true ->
      _extract_data_from_response (PList (pre ++ PList l :: post)) = l /\
      _extract_data_from_response (PTuple (pre ++ PList l :: post)) = l) /\
  (forall e rest,
      existsb is_list_of_dicts rest = false ->
      _extract_data_from_response (PList (PDict e :: rest)) = PDict e :: rest /\
      _extract_data_from_response (PTuple (PDict e :: rest)) = PDict e :: rest) /\
  (forall data j d,
      (forall l, data <> Some (PList l)) ->
      dict_data_list j = Some d ->
      _extract_data_from_response (PObj data (JsonReturns j)) = d) /\
  (forall res, recognized res = false -> _extract_data_from_response res = []).
Proof.
  split; [reflexivity|].
  split.
  { intros entries d H. unfold _extract_data_from_response. simpl. now rewrite H. }
  split.
  { intros pre l post Hpre Hl.
    pose proof (first_list_of_dicts_first pre post l Hpre Hl) as H.
    unfold _extract_data_from_response, sequence_case.
    cbn [getattr_data dict_data_list]. rewrite H. auto. }
  split.
  { intros e rest H.
    assert (F : first_list_of_dicts (PDict e :: rest) = None).
    { simpl. now apply first_list_of_dicts_None. }
    unfold _extract_data_from_response, sequence_case.
    cbn [getattr_data dict_data_list]. rewrite F. auto. }
  split.
  { intros data j d Hdata Hj. unfold _extract_data_from_response.
    assert (G : match getattr_data (PObj data (JsonReturns j)) with
                | PList _ => False | _ => True end).
    { destruct data as [[]|]; simpl; auto. eapply Hdata; reflexivity. }
    destruct (getattr_data (PObj data (JsonReturns j))); try contradiction;
      simpl; now rewrite Hj. }
  intros res H. unfold _extract_data_from_response.
  destruct res as [| q | s | items | items | entries | data j]; simpl in *;
    try reflexivity.
  - apply orb_false_iff in H. destruct H as [H1 H2].
    apply first_list_of_dicts_None in H1.
    unfold sequence_case. rewrite H1.
    destruct items as [|[] ?]; try reflexivity; discriminate.
  - apply orb_false_iff in H. destruct H as [H1 H2].
    apply first_list_of_dicts_None in H1.
    unfold sequence_case. rewrite H1.
    destruct items as [|[] ?]; try reflexivity; discriminate.
  - destruct (dict_get entries "data") as [[]|]; simpl in *;
      try reflexivity; discriminate.
  - destruct data as [[]|]; try discriminate;
      destruct j as [| v | v |]; simpl in *; try reflexivity;
      destruct (dict_data_list v); simpl in *; try reflexivity; discriminate.
Qed.

Lemma extract_data_shapes_witness :
  _extract_data_from_response
    (PObj (Some (PList [PDict [("id", PNum 1)]])) JsonRaises)
  = [PDict [("id", PNum 1)]] /\
  _extract_data_from_response (PDict [("data", PList [PDict []])]) = [PDict []] /\
  _extract_data_from_response
    (PTuple [PNum 3; PList [PNum 4]; PList [PDict [("id", PNum 1)]];
             PList [PDict [("id", PNum 2)]]])
  = [PDict [("id", PNum 1)]] /\
  _extract_data_from_response (PObj (Some PNone) JsonRaises) = [] /\
  _extract_data_from_response (PStr "oops") = [].
Proof.
  destruct extract_data_shapes as (S1 & S2 & S3 & S4 & S5 & S6).
  split; [apply S1|].
  split; [apply S2; reflexivity|].
  split; [apply (S3 [PNum 3; PList [PNum 4]] [PDict [("id", PNum 1)]]
                    [PList [PDict [("id", PNum 2)]]]); reflexivity|].
  split; apply S6; reflexivity.
Defined.

(** ** The validation stage *)

Lemma column_entry_ok {A : Type} (df : DataFrame) (k : string)
    (f : column -> A) :
  exists e,
    (if has_col df k then c <- getcol df k ;; Ok (Some (f c)) else Ok None)
    = Ok e.
Proof.
  destruct (has_col df k) eqn:E; [|eauto].
  apply has_col_getcol in E. destruct E as [c ->]. simpl. eauto.
Qed.

Lemma check_missing_ok (df : DataFrame) :
  exists l, check_missing df = Ok l /\
            map fst l = ["tenure"; "MonthlyCharges"; "TotalCharges"].
Proof.
  unfold check_missing.
  destruct (column_entry_ok df "tenure" null_count) as [e1 ->].
  destruct (column_entry_ok df "MonthlyCharges" null_count) as [e2 ->].
  destruct (column_entry_ok df "TotalCharges" null_count) as [e3 ->].
  simpl. eauto.
Qed.

Lemma check_segments_ok (df : DataFrame) :
  exists l, check_segments df = Ok l /\
            map fst l = ["tenure_group"; "monthly_charge_segment"].
Proof.
  unfold check_segments.
  destruct (column_entry_ok df "tenure_group"
              (fun c => {| nulls := null_count c;
                           unique_values := unique cell_eqb (dropna c) |}))
    as [e1 ->].
  destruct (column_entry_ok df "monthly_charge_segment"
              (fun c => {| nulls := null_count c;
                           unique_values := unique cell_eqb (dropna c) |}))
    as [e2 ->].
  simpl. eauto.
Qed.

Lemma Forall_unique {A : Type} (P : A -> Prop) (eqb : A -> A -> bool)
    (l : list A) :
  Forall P l -> Forall P (unique eqb l).
Proof.
  induction 1 as [|x xs Hx _ IH]; simpl; constructor; auto.
  apply Forall_forall. intros y Hy. apply filter_In in Hy.
  rewrite Forall_forall in IH. apply IH. tauto.
Qed.

Lemma no_strings_Forall (c : column) :
  existsb is_str c = false <-> Forall (fun x => is_str x = false) c.
Proof.
  induction c as [|x xs IH]; simpl.
  - split; auto.
  - rewrite orb_false_iff, IH. split.
    + intros [H1 H2]. constructor; auto.
    + intros H. inversion H; auto.
Qed.

Lemma strings_nil (c : column) :
  Forall (fun x => is_str x = false) c -> strings c = [].
Proof.
  unfold strings. induction 1 as [|x xs Hx _ IH]; simpl; [reflexivity|].
  rewrite IH. destruct x; simpl in *; auto; discriminate.
Qed.

Lemma py_sorted_numeric (c : column) :
  Forall (fun x => is_str x = false) c ->
  py_sorted c = Ok (map CNum (sort_by Qle_bool (numbers c))).
Proof.
  intros H. unfold py_sorted. rewrite (strings_nil c H).
  destruct (numbers c); reflexivity.
Qed.

(** On numbers, the comprehension keeps the codes whose integer part is
    outside [{0, 1, 2}]. *)
Lemma invalid_codes_numeric py_int (qs : list Q) :
  invalid_codes py_int (map CNum qs)
  = Ok (map CNum
          (filter (fun q => negb (in_allowed (Z.quot (Qnum q) (Zpos (Qden q)))))
                  qs)).
Proof.
  induction qs as [|q qs IH]; simpl; [reflexivity|].
  rewrite IH. simpl.
  destruct (in_allowed _); reflexivity.
Qed.

Lemma check_contract_codes_numeric py_int (df : DataFrame) :
  finite_codes df = true -> exists cc, check_contract_codes py_int df = Ok cc.
Proof.
  unfold finite_codes, check_contract_codes. intros H.
  destruct (has_col df "contract_type_code") eqn:E; [|eauto].
  apply has_col_getcol in E. destruct E as [c Hc]. rewrite Hc in *.
  cbn [bind]. apply negb_true_iff in H. apply no_strings_Forall in H.
  assert (F : Forall (fun x => is_str x = false) (unique cell_eqb (dropna c))).
  { apply Forall_unique. unfold dropna. apply Forall_forall.
    intros x Hx. apply filter_In in Hx. rewrite Forall_forall in H.
    apply H. tauto. }
  rewrite (py_sorted_numeric _ F). cbn [bind].
  rewrite invalid_codes_numeric. cbn [bind]. eauto.
Qed.

(** C2 (the code at the failing input): on a staged file whose code column
    holds 0, 1.5, a blank and 2, check 6 lists the codes 0, 1.5, 2 and
    reports none of them as invalid, [int(1.5)] being 1. *)
Theorem fractional_code_passes_check py_int :
  check_contract_codes py_int fractional_codes
  = Ok (Codes [CNum 0; CNum 1.5; CNum 2] []).
Proof. reflexivity. Qed.

(** C7 (as stated, refuted): nothing but a missing staged file would stop
    the validation.  With the staged file in place and no credentials in
    the environment, [validate] ends in [SystemExit] before checks 5 and 6;
    and with a code column that holds text, check 6 raises [ValueError].
    (An infinite code would likewise end check 6 in [OverflowError], see
    [float_to_int]; the frames of the model hold finite numbers only.) *)
Lemma validate_never_raises_counterexample :
  validate decimal_int (Some (Ok staged_example)) NoCredentials
  = Raise SystemExit /\
  validate decimal_int (Some (Ok text_codes)) Unreachable = Raise ValueError /\
  ~ (forall df r, exists out,
        validate decimal_int (Some (Ok df)) r = Ok out).
Proof.
  split; [reflexivity|]. split; [reflexivity|].
  intros H. destruct (H staged_example NoCredentials) as [out Hout].
  discriminate Hout.
Qed.

(** C7 (amended): a missing staged file ends the run at once, without an
    exception and without a report.  For a staged frame whose contract-code
    column is absent or holds only blanks and finite numbers, missing
    credentials stop the run with [SystemExit]; in every other case the run
    ends with the full report:
    the three null counts, the duplicate count, both segment checks and
    the contract-code check, whatever they found, with check 4 skipped
    when the store could not be reached and the store's row count
    otherwise. *)
Theorem validate_outcomes py_int (staged : option (result DataFrame))
    (r : remote) :
  (staged = None -> validate py_int staged r = Ok None) /\
  (forall df,
      staged = Some (Ok df) -> finite_codes df = true ->
      (r = NoCredentials -> validate py_int staged r = Raise SystemExit) /\
      (r <> NoCredentials ->
       exists rep,
         validate py_int staged r = Ok (Some rep) /\
         staged_rows rep = nrows df /\
         unique_rows rep = unique_row_count df /\
         check_missing df = Ok (missing_values rep) /\
         map fst (missing_values rep)
         = ["tenure"; "MonthlyCharges"; "TotalCharges"] /\
         check_segments df = Ok (segments rep) /\
         map fst (segments rep) = ["tenure_group"; "monthly_charge_segment"] /\
         check_contract_codes py_int df = Ok (contract_codes rep) /\
         (r = Unreachable -> supabase_rows rep = None) /\
         (forall res,
             r = Responds res ->
             supabase_rows rep
             = Some (List.length (_extract_data_from_response res))))).
Proof.
  split; [intros ->; reflexivity|].
  intros df -> Hnum.
  destruct (check_missing_ok df) as (mv & Hmv & Kmv).
  destruct (check_segments_ok df) as (sg & Hsg & Ksg).
  destruct (check_contract_codes_numeric py_int df Hnum) as (cc & Hcc).
  unfold validate. cbn [bind]. rewrite Hmv. cbn [bind].
  split.
  - intros ->. reflexivity.
  - intros Hr. destruct r as [| |res]; [congruence | |].
    + cbn [check_row_parity query_remote is_Exception bind].
      rewrite Hsg. cbn [bind]. rewrite Hcc. cbn [bind].
      eexists. split; [reflexivity|]. cbn.
      repeat split; auto. intros res [=].
    + cbn [check_row_parity query_remote is_Exception bind].
      rewrite Hsg. cbn [bind]. rewrite Hcc. cbn [bind].
      eexists. split; [reflexivity|]. cbn.
      repeat split; auto; [intros [=] | intros res' [= <-]; reflexivity].
Qed.

Lemma validate_outcomes_witness :
  exists rep,
    validate decimal_int (Some (Ok staged_example)) Unreachable = Ok (Some rep) /\
    staged_rows rep = 3%nat /\
    supabase_rows rep = None /\
    contract_codes rep = Codes [CNum 0; CNum 2] [].
Proof.
  destruct (validate_outcomes decimal_int (Some (Ok staged_example)) Unreachable)
    as [_ H].
  destruct (H staged_example eq_refl eq_refl) as [_ H'].
  destruct H' as (rep & Hv & Hrows & _ & _ & _ & _ & _ & Hcc & Hskip & _);
    [discriminate|].
  exists rep. repeat split; auto.
  change (check_contract_codes decimal_int staged_example)
    with (Ok (Codes [CNum 0; CNum 2] [])) in Hcc.
  injection Hcc as <-. reflexivity.
Defined.

(** ** The analysis stage *)

Lemma cell_eqb_refl (c : cell) : cell_eqb c c = true.
Proof.
  destruct c as [|q|s]; simpl; auto.
  - apply Qeq_bool_iff. reflexivity.
  - apply String.eqb_refl.
Qed.

Lemma In_unique {A : Type} (eqb : A -> A -> bool) (x : A) (l : list A) :
  In x (unique eqb l) -> In x l.
Proof.
  induction l as [|y ys IH]; simpl; [tauto|].
  intros [H|H]; [auto|]. apply filter_In in H. right. apply IH. tauto.
Qed.

Lemma Qnat_plus (a b : nat) : Qnat (a + b) == Qnat a + Qnat b.
Proof.
  unfold Qnat. rewrite Nat2Z.inj_add, inject_Z_plus. reflexivity.
Qed.

Lemma Qnat_pos (n : nat) : (0 < n)%nat -> ~ Qnat n == 0.
Proof.
  unfold Qnat, Qeq. simpl. intros Hn E. lia.
Qed.

Lemma shares_sum_to_100 (a b : nat) :
  (0 < a + b)%nat ->
  Qnat a / Qnat (a + b) * 100 + Qnat b / Qnat (a + b) * 100 == 100.
Proof.
  intros Hpos. pose proof (Qnat_pos _ Hpos) as Hne.
  pose proof (Qnat_plus a b) as Hsum.
  set (t := Qnat (a + b)) in *.
  assert (E : Qnat a / t * 100 + Qnat b / t * 100
              == (Qnat a + Qnat b) / t * 100) by (field; exact Hne).
  rewrite E, <- Hsum. field. exact Hne.
Qed.

(** A tenure group of the pivot has at least one row behind it. *)
Lemma crosstab_row_nonempty (pairs : list (cell * bool)) (g : cell) :
  In g (map fst pairs) ->
  (0 < crosstab_count pairs g false + crosstab_count pairs g true)%nat.
Proof.
  unfold crosstab_count.
  induction pairs as [|[h f] ps IH]; simpl; [tauto|].
  intros [->|H].
  - rewrite cell_eqb_refl. destruct f; simpl; lia.
  - specialize (IH H).
    destruct (cell_eqb g h); simpl; [destruct f; simpl; lia | exact IH].
Qed.

Lemma churn_vs_tenure_rows (tg : column) (flags : list bool)
    (table : list pivot_row) (r : pivot_row) :
  churn_vs_tenure tg flags = Ok table -> In r table ->
  no_churn_pct r + churn_pct r == 100.
Proof.
  unfold churn_vs_tenure.
  destruct (negb (existsb negb flags)); [discriminate|].
  destruct (negb (existsb id flags)); [discriminate|].
  intros [= <-] Hr. apply in_map_iff in Hr.
  destruct Hr as (g & <- & Hg). apply In_unique in Hg. simpl.
  apply shares_sum_to_100. now apply crosstab_row_nonempty.
Qed.

Lemma save_if_any_In {A : Type} (file : list A -> artifact) (table : list A)
    (a : artifact) :
  In a (save_if_any file table) -> a = file table.
Proof.
  unfold save_if_any. destruct (is_empty table); simpl; [tauto|].
  intros [H|[]]. now symmetry.
Qed.

Lemma save_if_any_not_summary {A : Type} (file : list A -> artifact)
    (table : list A) :
  (forall t, is_summary (file t) = false) ->
  Forall (fun a => is_summary a = false) (save_if_any file table).
Proof.
  intros H. unfold save_if_any. destruct (is_empty table); repeat constructor.
  apply H.
Qed.

Lemma df_empty_false_rows (df : DataFrame) :
  df_empty df = false -> (0 < nrows df)%nat.
Proof.
  unfold df_empty. destruct df as [|x xs]; [discriminate|].
  intros H. apply Nat.eqb_neq in H. lia.
Qed.

(** The defect behind the gap in C1: with a churn column and a tenure-group
    column but no churner at all, the pivot step raises and no file is
    written, the summary included. *)
Example no_churner_raises :
  analyze_and_save show_float loyal_table = Raise (KeyError "churn_pct").
Proof. reflexivity. Qed.

(** C1 (as stated, refuted): on an empty frame the summary would be written
    with a blank churn percentage and a row count of 0, and the summary
    would be written for every frame.  On the empty frame
    [analyze_and_save] returns at its first test and writes nothing. *)
Lemma empty_frame_summary_counterexample :
  df_empty [] = true /\
  analyze_and_save show_float [] = Ok [] /\
  analyze_and_save show_float [("churn", [])] = Ok [] /\
  ~ (forall df, df_empty df = true ->
                analyze_and_save show_float df = Ok [AnalysisSummary None 0]) /\
  ~ (forall df, exists pct n rest,
        analyze_and_save show_float df = Ok (AnalysisSummary pct n :: rest)).
Proof.
  repeat (split; [reflexivity|]). split.
  - intros H. specialize (H [] eq_refl). discriminate H.
  - intros H. destruct (H []) as (pct & n & rest & E). discriminate E.
Qed.

Lemma save_if_any_In_iff {A : Type} (file : list A -> artifact)
    (table : list A) (a : artifact) :
  In a (save_if_any file table) <-> a = file table /\ table <> [].
Proof.
  unfold save_if_any. destruct table as [|x xs]; simpl.
  - split; [tauto | intros [_ H]; congruence].
  - split; [intros [<-|[]]; split; [reflexivity | discriminate] | intuition].
Qed.

(** What [analyze_and_save] writes after the summary, file by file. *)
Lemma saved_artifacts_In (avg : list (cell * cell))
    (counts dist : list (cell * nat)) (pivot : list pivot_row) (a : artifact) :
  In a (save_if_any AvgMonthlyByContract avg
        ++ save_if_any TenureGroupCounts counts
        ++ save_if_any InternetServiceDistribution dist
        ++ save_if_any ChurnVsTenurePivot pivot)
  <-> (a = AvgMonthlyByContract avg /\ avg <> [])
      \/ (a = TenureGroupCounts counts /\ counts <> [])
      \/ (a = InternetServiceDistribution dist /\ dist <> [])
      \/ (a = ChurnVsTenurePivot pivot /\ pivot <> []).
Proof.
  rewrite !in_app_iff, !save_if_any_In_iff. tauto.
Qed.

(** C1 (amended): on an empty frame [analyze_and_save] writes no artifact
    and raises nothing.  On a non-empty frame whose metrics can be
    computed, the summary is written first, with the churn percentage
    (blank when there is no churn column) and the number of rows, which is
    positive; no other file is a summary; each of the four other files is
    written exactly when its table is not empty, and none of them is
    written for a metric whose columns are absent. *)
Theorem summary_artifact show (df : DataFrame) :
  (df_empty df = true -> analyze_and_save show df = Ok []) /\
  (df_empty df = false ->
   forall avg pivot,
     kpi_avg_monthly df = Ok avg ->
     pivot_churn_vs_tenure show df = Ok pivot ->
     exists rest,
       analyze_and_save show df
       = Ok (AnalysisSummary (kpi_churn_pct show df) (nrows df) :: rest) /\
       (0 < nrows df)%nat /\
       Forall (fun a => is_summary a = false) rest /\
       (_find_col df ["churn"] = None -> kpi_churn_pct show df = None) /\
       (_find_col df monthly_candidates = None ->
        _find_col df tenure_group_candidates = None ->
        _find_col df internet_candidates = None ->
        rest = []) /\
       (forall t, In (AvgMonthlyByContract t) rest <-> t = avg /\ t <> []) /\
       (forall t, In (TenureGroupCounts t) rest
                  <-> t = kpi_tenure_counts df /\ t <> []) /\
       (forall t, In (InternetServiceDistribution t) rest
                  <-> t = kpi_internet_dist df /\ t <> []) /\
       (forall t, In (ChurnVsTenurePivot t) rest <-> t = pivot /\ t <> []) /\
       (_find_col df monthly_candidates = None
        \/ _find_col df contract_candidates = None ->
        forall t, ~ In (AvgMonthlyByContract t) rest) /\
       (_find_col df tenure_group_candidates = None ->
        forall t, ~ In (TenureGroupCounts t) rest) /\
       (_find_col df internet_candidates = None ->
        forall t, ~ In (InternetServiceDistribution t) rest) /\
       (_find_col df ["churn"] = None
        \/ _find_col df tenure_group_candidates = None ->
        forall t, ~ In (ChurnVsTenurePivot t) rest)).
Proof.
  unfold analyze_and_save. split.
  - intros ->. reflexivity.
  - intros E avg pivot Havg Hpivot. rewrite E, Havg, Hpivot. cbn [bind].
    eexists. split; [reflexivity|].
    split; [now apply df_empty_false_rows|].
    split.
    { do 3 (apply Forall_app; split;
              [apply save_if_any_not_summary; reflexivity|]).
      apply save_if_any_not_summary; reflexivity. }
    split.
    { intros H. unfold kpi_churn_pct. now rewrite H. }
    assert (Aavg : _find_col df monthly_candidates = None
                   \/ _find_col df contract_candidates = None -> avg = []).
    { intros H. unfold kpi_avg_monthly in Havg.
      destruct (_find_col df monthly_candidates);
        destruct (_find_col df contract_candidates);
        destruct H as [H|H]; try discriminate H; now injection Havg. }
    assert (Apiv : _find_col df ["churn"] = None
                   \/ _find_col df tenure_group_candidates = None ->
                   pivot = []).
    { intros H. unfold pivot_churn_vs_tenure in Hpivot.
      destruct (_find_col df ["churn"]);
        destruct (_find_col df tenure_group_candidates);
        destruct H as [H|H]; try discriminate H; now injection Hpivot. }
    assert (Acnt : _find_col df tenure_group_candidates = None ->
                   kpi_tenure_counts df = []).
    { intros H. unfold kpi_tenure_counts. now rewrite H. }
    assert (Adist : _find_col df internet_candidates = None ->
                    kpi_internet_dist df = []).
    { intros H. unfold kpi_internet_dist. now rewrite H. }
    split.
    { intros Hm Ht Hi.
      rewrite (Aavg (or_introl Hm)), (Apiv (or_intror Ht)), (Acnt Ht), (Adist Hi).
      reflexivity. }
    assert (I1 : forall t, In (AvgMonthlyByContract t)
                   (save_if_any AvgMonthlyByContract avg
                    ++ save_if_any TenureGroupCounts (kpi_tenure_counts df)
                    ++ save_if_any InternetServiceDistribution
                         (kpi_internet_dist df)
                    ++ save_if_any ChurnVsTenurePivot pivot)
                 <-> t = avg /\ t <> []).
    { intros t. rewrite saved_artifacts_In. split.
      - intros [[[= ->] H]|[[H _]|[[H _]|[H _]]]]; try discriminate H. auto.
      - intros [-> H]. auto. }
    assert (I2 : forall t, In (TenureGroupCounts t)
                   (save_if_any AvgMonthlyByContract avg
                    ++ save_if_any TenureGroupCounts (kpi_tenure_counts df)
                    ++ save_if_any InternetServiceDistribution
                         (kpi_internet_dist df)
                    ++ save_if_any ChurnVsTenurePivot pivot)
                 <-> t = kpi_tenure_counts df /\ t <> []).
    { intros t. rewrite saved_artifacts_In. split.
      - intros [[H _]|[[[= ->] H]|[[H _]|[H _]]]]; try discriminate H. auto.
      - intros [-> H]. auto. }
    assert (I3 : forall t, In (InternetServiceDistribution t)
                   (save_if_any AvgMonthlyByContract avg
                    ++ save_if_any TenureGroupCounts (kpi_tenure_counts df)
                    ++ save_if_any InternetServiceDistribution
                         (kpi_internet_dist df)
                    ++ save_if_any ChurnVsTenurePivot pivot)
                 <-> t = kpi_internet_dist df /\ t <> []).
    { intros t. rewrite saved_artifacts_In. split.
      - intros [[H _]|[[H _]|[[[= ->] H]|[H _]]]]; try discriminate H. auto.
      - intros [-> H]. auto 6. }
    assert (I4 : forall t, In (ChurnVsTenurePivot t)
                   (save_if_any AvgMonthlyByContract avg
                    ++ save_if_any TenureGroupCounts (kpi_tenure_counts df)
                    ++ save_if_any InternetServiceDistribution
                         (kpi_internet_dist df)
                    ++ save_if_any ChurnVsTenurePivot pivot)
                 <-> t = pivot /\ t <> []).
    { intros t. rewrite saved_artifacts_In. split.
      - intros [[H _]|[[H _]|[[H _]|[[= ->] H]]]]; try discriminate H. auto.
      - intros [-> H]. auto 6. }
    repeat match goal with |- _ /\ _ => split end;
      try assumption.
    + intros H t Hin. apply I1 in Hin. destruct Hin as [-> Hne].
      apply Hne. now apply Aavg.
    + intros H t Hin. apply I2 in Hin. destruct Hin as [-> Hne].
      apply Hne. now apply Acnt.
    + intros H t Hin. apply I3 in Hin. destruct Hin as [-> Hne].
      apply Hne. now apply Adist.
    + intros H t Hin. apply I4 in Hin. destruct Hin as [-> Hne].
      apply Hne. now apply Apiv.
Qed.

Lemma summary_artifact_witness :
  exists rest,
    analyze_and_save show_float table_example
    = Ok (AnalysisSummary (Some (200 # 4)) 4 :: rest) /\
    (forall t, ~ In (InternetServiceDistribution t) rest) /\
    In (TenureGroupCounts [(CStr "New", 3%nat); (CStr "MISSING", 1%nat)]) rest.
Proof.
  destruct (summary_artifact show_float table_example) as [_ H].
  destruct (H eq_refl _ _ eq_refl eq_refl)
    as (rest & E & _ & _ & _ & _ & _ & I2 & _ & _ & _ & _ & A3 & _).
  exists rest. split; [exact E|]. split; [exact (A3 eq_refl)|].
  apply I2. split; [reflexivity | discriminate].
Defined.

(** A frame with a tenure-group column and nothing else. *)
Example tenure_only_artifacts :
  analyze_and_save show_float [("tenure_group", [CStr "New"; CNull])]
  = Ok [AnalysisSummary None 2;
        TenureGroupCounts [(CStr "New", 1%nat); (CStr "MISSING", 1%nat)]].
Proof. reflexivity. Qed.

(** C8: in the churn-vs-tenure pivot written by [analyze_and_save], the
    churn percentage and the no-churn percentage of every tenure group in
    the table, the "MISSING" one included, add up to 100. *)
Theorem pivot_rows_sum_to_100 show (df : DataFrame) (arts : list artifact)
    (table : list pivot_row) (r : pivot_row) :
  analyze_and_save show df = Ok arts ->
  In (ChurnVsTenurePivot table) arts ->
  In r table ->
  no_churn_pct r + churn_pct r == 100.
Proof.
  unfold analyze_and_save. destruct (df_empty df).
  { intros [= <-] []. }
  intros H Hin Hr. inv_bind H. rename a into avg. inv_bind H.
  rename a into pivot. injection H as <-.
  destruct Hin as [Hin|Hin]; [discriminate|].
  repeat (apply in_app_or in Hin; destruct Hin as [Hin|Hin];
          [apply save_if_any_In in Hin; discriminate|]).
  apply save_if_any_In in Hin. injection Hin as ->.
  unfold pivot_churn_vs_tenure in Ha0.
  destruct (_find_col df ["churn"]) as [c|];
    [destruct (_find_col df tenure_group_candidates) as [t|]|].
  - eapply churn_vs_tenure_rows; eassumption.
  - injection Ha0 as <-. destruct Hr.
  - injection Ha0 as <-. destruct Hr.
Qed.

Lemma pivot_rows_sum_to_100_witness :
  no_churn_pct {| tenure_group := CStr "MISSING";
                  no_churn_pct := 0 / 1 * 100;
                  churn_pct := 1 / 1 * 100 |}
  + churn_pct {| tenure_group := CStr "MISSING";
                 no_churn_pct := 0 / 1 * 100;
                 churn_pct := 1 / 1 * 100 |} == 100.
Proof.
  eapply (pivot_rows_sum_to_100 show_float table_example).
  - reflexivity.
  - simpl. do 3 right. left. reflexivity.
  - simpl. right. left. reflexivity.
Defined.

(** * Further properties of the stages *)

(** ** Column names *)

Lemma lower_ascii_idem (c : ascii) : lower_ascii (lower_ascii c) = lower_ascii c.
Proof.
  destruct c as [[] [] [] [] [] [] [] []]; reflexivity.
Qed.

Lemma str_lower_idem (s : string) : str_lower (str_lower s) = str_lower s.
Proof.
  induction s as [|c r IH]; simpl; [reflexivity|].
  now rewrite lower_ascii_idem, IH.
Qed.

Lemma columns_setcol (df : DataFrame) (n : string) (c : column) :
  columns (setcol df n c) = add_name (columns df) n.
Proof.
  unfold add_name, str_in, columns.
  induction df as [|[m d] df IH]; simpl; [reflexivity|].
  rewrite (String.eqb_sym n m).
  destruct (String.eqb m n); simpl; [reflexivity|].
  rewrite IH. destruct (existsb (String.eqb n) (map fst df)); reflexivity.
Qed.

Lemma columns_fillna_dict (df : DataFrame) (k : string) (v : cell) :
  columns (fillna_dict df k v) = columns df.
Proof.
  unfold columns, fillna_dict. rewrite map_map. apply map_ext.
  intros [m d]. simpl. destruct (String.eqb m k); reflexivity.
Qed.

Lemma columns_drop_one (df : DataFrame) (l : string) :
  columns (filter (fun nc => negb (String.eqb (fst nc) l)) df)
  = filter (fun n => negb (String.eqb n l)) (columns df).
Proof.
  unfold columns. induction df as [|[m d] df IH]; simpl; [reflexivity|].
  destruct (String.eqb m l); simpl; now rewrite IH.
Qed.

Lemma columns_lower_columns (df : DataFrame) :
  columns (lower_columns df) = map str_lower (columns df).
Proof.
  unfold columns, lower_columns. rewrite !map_map. reflexivity.
Qed.

Lemma add_name_present (names : list string) (n : string) :
  str_in n names = true -> add_name names n = names.
Proof. unfold add_name. now intros ->. Qed.

Lemma getcol_has_col (df : DataFrame) (k : string) (c : column) :
  getcol df k = Ok c -> has_col df k = true.
Proof. intros H. apply has_col_getcol. eauto. Qed.

Lemma getcol_Raise (df : DataFrame) (k : string) (e : exn) :
  getcol df k = Raise e -> e = KeyError k /\ has_col df k = false.
Proof.
  intros H. split.
  - induction df as [|[m d] df IH]; simpl in H.
    + now injection H as <-.
    + destruct (String.eqb m k); [discriminate | auto].
  - destruct (has_col df k) eqn:E; [|reflexivity].
    apply has_col_getcol in E. destruct E as [c Hc]. congruence.
Qed.

Lemma cut_Raise bins labels right (c : column) (e : exn) :
  cut bins labels right c = Raise e ->
  e = TypeError /\ existsb is_str c = true.
Proof.
  revert e. induction c as [|x xs IH]; simpl; intros e H; [discriminate|].
  destruct (cut_cell bins labels right x) as [y|ex] eqn:Hx; simpl in H.
  - destruct (cut bins labels right xs) as [ys|exs]; simpl in H;
      [discriminate|].
    injection H as <-. destruct (IH exs eq_refl) as [-> ->].
    split; [reflexivity | apply orb_true_r].
  - injection H as <-. destruct x as [|v|s]; simpl in Hx.
    + discriminate.
    + destruct (_ || _); [discriminate|].
      destruct (nth_error labels _); discriminate.
    + injection Hx as <-. auto.
Qed.

Lemma cut_Ok_no_strings bins labels right (c out : column) :
  cut bins labels right c = Ok out -> existsb is_str c = false.
Proof.
  intros H. destruct (existsb is_str c) eqn:E; [|reflexivity].
  exfalso. revert out H. induction c as [|x xs IH]; simpl in *; [discriminate|].
  intros out H. inv_bind H. inv_bind H.
  destruct x as [|v|s]; simpl in *; try discriminate; eauto.
Qed.

Lemma has_col_false_getcol (df : DataFrame) (k : string) :
  has_col df k = false -> getcol df k = Raise (KeyError k).
Proof.
  intros H. destruct (getcol df k) as [c|e] eqn:E.
  - apply getcol_has_col in E. congruence.
  - apply getcol_Raise in E. destruct E as [-> _]. reflexivity.
Qed.

Lemma has_col_In (df : DataFrame) (k : string) :
  has_col df k = true <-> In k (columns df).
Proof.
  unfold has_col, str_in. rewrite existsb_exists. split.
  - intros (n & Hn & E). apply String.eqb_eq in E. now subst.
  - intros H. exists k. split; [exact H | apply String.eqb_refl].
Qed.

(** ** The header of the staged file *)

Lemma transform_data_header parse (raw staged : DataFrame) :
  transform_data parse raw = Ok staged ->
  columns staged = staged_names (columns raw) /\
  has_col raw "customerID" = true /\ has_col raw "gender" = true.
Proof.
  unfold transform_data. intros H.
  inv_bind H. rename a into tc, Ha into Htc.
  inv_bind H. rewrite getcol_setcol_same in Ha. injection Ha as <-.
  inv_bind H. rename a into ten, Ha into Hten.
  inv_bind H. rename a into tg, Ha into Htg.
  inv_bind H. rename a into mc, Ha into Hmc.
  inv_bind H. rename a into seg, Ha into Hseg.
  inv_bind H. rename a into isv, Ha into Hisv.
  inv_bind H. rename a into ml, Ha into Hml.
  inv_bind H. rename a into ct, Ha into Hct.
  inv_bind H. rename a into post, Ha into Hdrop.
  injection H as <-.
  pose proof (drop_two _ _ _ _ Hdrop) as Hpost.
  pose proof (drop_Ok_present _ _ _ Hdrop "customerID") as E1.
  pose proof (drop_Ok_present _ _ _ Hdrop "gender") as E2.
  specialize (E1 (or_introl eq_refl)).
  specialize (E2 (or_intror (or_introl eq_refl))).
  apply has_col_getcol in E1, E2.
  destruct E1 as [cid Hcid], E2 as [gen Hgen].
  getcol_norm_in Hcid. getcol_norm_in Hgen.
  split; [|split; eapply getcol_has_col; eassumption].
  subst post.
  rewrite columns_lower_columns, !columns_drop_one, !columns_setcol,
    columns_fillna_dict, columns_setcol.
  rewrite (add_name_present (columns raw) "TotalCharges")
    by (eapply getcol_has_col; exact Htc).
  reflexivity.
Qed.

(** X1.  [transform_data] returns a staged frame exactly for the raw frames
    that have the eight columns it reads or drops, with no string in the
    tenure and monthly-charges columns; the parser plays no part in it. *)
Theorem transform_returns_iff_readable parse (raw : DataFrame) :
  (exists staged, transform_data parse raw = Ok staged)
  <-> readable_raw raw = true.
Proof.
  split; [|apply transform_data_total].
  intros [staged H].
  destruct (transform_data_header _ _ _ H) as (_ & Hcid & Hgen).
  apply transform_data_inv in H.
  destruct H as (tc & ten & mc & isv & ml & ct & tg & seg & post & Htc & Hten
                 & Hmc & Hisv & Hml & Hct & Htg & Hseg & _).
  unfold readable_raw, required_columns, numeric_column. cbn [forallb].
  rewrite (getcol_has_col _ _ _ Htc), (getcol_has_col _ _ _ Hten),
    (getcol_has_col _ _ _ Hmc), (getcol_has_col _ _ _ Hisv),
    (getcol_has_col _ _ _ Hml), (getcol_has_col _ _ _ Hct), Hcid, Hgen.
  rewrite Hten, Hmc.
  rewrite (cut_Ok_no_strings _ _ _ _ _ Htg), (cut_Ok_no_strings _ _ _ _ _ Hseg).
  reflexivity.
Qed.

Lemma has_col_same_lookup (df df' : DataFrame) (k : string) :
  getcol df' k = getcol df k -> has_col df' k = has_col df k.
Proof.
  intros H. destruct (has_col df k) eqn:E.
  - apply has_col_getcol in E. destruct E as [c Hc].
    apply has_col_getcol. exists c. congruence.
  - destruct (has_col df' k) eqn:E'; [|reflexivity].
    apply has_col_getcol in E'. destruct E' as [c Hc].
    rewrite H in Hc. apply getcol_has_col in Hc. congruence.
Qed.

Ltac missing_column k Hk :=
  apply getcol_Raise in Hk; destruct Hk as [-> Hk];
  right; left; exists k;
  split; [simpl; tauto | split; [reflexivity | exact Hk]].

(** X2.  Once the raw file has been read, [transform_data] raises in three
    ways only: a [KeyError] naming the first column it reads that the frame
    does not have; a [TypeError] from bucketing a tenure or
    monthly-charges column that holds a string; and, from [df.drop], one
    [KeyError] whose message lists every one of [customerID] and [gender]
    that the raw frame does not have. *)
Theorem transform_failure_modes parse (raw : DataFrame) (e : exn) :
  transform_data parse raw = Raise e ->
  (e = TypeError /\
   (numeric_column raw "tenure" = false
    \/ numeric_column raw "MonthlyCharges" = false))
  \/ (exists k,
        In k ["TotalCharges"; "tenure"; "MonthlyCharges"; "InternetService";
              "MultipleLines"; "Contract"] /\
        e = KeyError k /\ has_col raw k = false)
  \/ (absent_labels raw ["customerID"; "gender"] <> [] /\
      e = KeyError (not_found (absent_labels raw ["customerID"; "gender"]))).
Proof.
  unfold transform_data. intros H.
  destruct (getcol raw "TotalCharges") as [tc|e0] eqn:Htc; cbn [bind] in H;
    [|injection H as <-; missing_column "TotalCharges" Htc].
  rewrite getcol_setcol_same in H. cbn [bind] in H. getcol_norm_in H.
  destruct (getcol raw "tenure") as [ten|e0] eqn:Hten; cbn [bind] in H;
    [|injection H as <-; missing_column "tenure" Hten].
  destruct (cut tenure_bins tenure_labels false ten) as [tg|e0] eqn:Htg;
    cbn [bind] in H.
  2:{ injection H as <-. apply cut_Raise in Htg. destruct Htg as [-> Hs].
      left. split; [reflexivity|]. left.
      unfold numeric_column. now rewrite Hten, Hs. }
  getcol_norm_in H.
  destruct (getcol raw "MonthlyCharges") as [mc|e0] eqn:Hmc; cbn [bind] in H;
    [|injection H as <-; missing_column "MonthlyCharges" Hmc].
  destruct (cut charge_bins charge_labels true mc) as [seg|e0] eqn:Hseg;
    cbn [bind] in H.
  2:{ injection H as <-. apply cut_Raise in Hseg. destruct Hseg as [-> Hs].
      left. split; [reflexivity|]. right.
      unfold numeric_column. now rewrite Hmc, Hs. }
  getcol_norm_in H.
  destruct (getcol raw "InternetService") as [isv|e0] eqn:Hisv; cbn [bind] in H;
    [|injection H as <-; missing_column "InternetService" Hisv].
  getcol_norm_in H.
  destruct (getcol raw "MultipleLines") as [ml|e0] eqn:Hml; cbn [bind] in H;
    [|injection H as <-; missing_column "MultipleLines" Hml].
  getcol_norm_in H.
  destruct (getcol raw "Contract") as [ct|e0] eqn:Hct; cbn [bind] in H;
    [|injection H as <-; missing_column "Contract" Hct].
  right. right.
  match type of H with
  | context [drop ?pre _] =>
      assert (A : absent_labels pre ["customerID"; "gender"]
                  = absent_labels raw ["customerID"; "gender"])
  end.
  { unfold absent_labels. cbn [filter].
    rewrite (has_col_same_lookup raw _ "customerID")
      by (getcol_norm; reflexivity).
    rewrite (has_col_same_lookup raw _ "gender")
      by (getcol_norm; reflexivity).
    reflexivity. }
  unfold drop in H. rewrite A in H.
  destruct (absent_labels raw ["customerID"; "gender"]) as [|l ls];
    cbn [bind] in H; [discriminate|].
  injection H as <-. split; [discriminate | reflexivity].
Qed.

Lemma transform_failure_modes_witness :
  (KeyError "['customerID', 'gender'] not found in axis" = TypeError /\
   (numeric_column raw_without_ids "tenure" = false
    \/ numeric_column raw_without_ids "MonthlyCharges" = false))
  \/ (exists k,
        In k ["TotalCharges"; "tenure"; "MonthlyCharges"; "InternetService";
              "MultipleLines"; "Contract"] /\
        KeyError "['customerID', 'gender'] not found in axis" = KeyError k /\
        has_col raw_without_ids k = false)
  \/ (absent_labels raw_without_ids ["customerID"; "gender"] <> [] /\
      KeyError "['customerID', 'gender'] not found in axis"
      = KeyError (not_found (absent_labels raw_without_ids
                               ["customerID"; "gender"]))).
Proof.
  apply (transform_failure_modes decimal_literal raw_without_ids).
  reflexivity.
Defined.

Lemma In_add_name (names : list string) (n x : string) :
  In x (add_name names n) <-> In x names \/ x = n.
Proof.
  unfold add_name, str_in. destruct (existsb (String.eqb n) names) eqn:E.
  - split; [auto|]. intros [H| ->]; [exact H|].
    apply existsb_exists in E. destruct E as (m & Hm & Em).
    apply String.eqb_eq in Em. now subst.
  - rewrite in_app_iff. simpl. intuition.
Qed.

Lemma In_fold_add_name (extra names : list string) (x : string) :
  In x (fold_left add_name extra names) <-> In x names \/ In x extra.
Proof.
  revert names. induction extra as [|n extra IH]; intros names; simpl.
  - tauto.
  - rewrite IH, In_add_name. intuition.
Qed.

Lemma In_staged_names (raw_names : list string) (n : string) :
  In n (staged_names raw_names) <->
  exists n0, n = str_lower n0 /\ n0 <> "customerID" /\ n0 <> "gender" /\
             (In n0 raw_names \/ In n0 derived_columns).
Proof.
  unfold staged_names. rewrite in_map_iff. split.
  - intros (n0 & <- & H). apply filter_In in H. destruct H as [H G].
    apply filter_In in H. destruct H as [H C].
    apply In_fold_add_name in H.
    apply negb_true_iff, String.eqb_neq in G, C. eauto.
  - intros (n0 & -> & C & G & H). exists n0. split; [reflexivity|].
    apply filter_In. split; [|now apply negb_true_iff, String.eqb_neq].
    apply filter_In. split; [|now apply negb_true_iff, String.eqb_neq].
    now apply In_fold_add_name.
Qed.

Lemma staged_names_lower_case parse (raw staged : DataFrame) :
  transform_data parse raw = Ok staged ->
  forall n, In n (columns staged) -> str_lower n = n.
Proof.
  intros H n Hn. destruct (transform_data_header _ _ _ H) as (Hcols & _ & _).
  rewrite Hcols in Hn. apply In_staged_names in Hn.
  destruct Hn as (n0 & -> & _). apply str_lower_idem.
Qed.

(** X3.  The header of the staged file is the raw header plus the five
    derived columns, minus [customerID] and [gender], in lower case: every
    staged name is lower-case, the five derived columns are there, and a
    staged column never comes from a column named [customerID] or
    [gender]. *)
Theorem staged_header parse (raw staged : DataFrame) :
  transform_data parse raw = Ok staged ->
  columns staged = staged_names (columns raw) /\
  (forall n, In n (columns staged) -> str_lower n = n) /\
  (forall d, In d derived_columns -> has_col staged d = true) /\
  (forall n, In n (columns staged) ->
     exists n0, n = str_lower n0 /\ n0 <> "customerID" /\ n0 <> "gender" /\
                (In n0 (columns raw) \/ In n0 derived_columns)).
Proof.
  intros H. destruct (transform_data_header _ _ _ H) as (Hcols & _ & _).
  split; [exact Hcols|]. rewrite Hcols. split; [|split].
  - intros n Hn. apply In_staged_names in Hn.
    destruct Hn as (n0 & -> & _). apply str_lower_idem.
  - intros d Hd. apply has_col_In. rewrite Hcols. apply In_staged_names.
    exists d. simpl in Hd.
    repeat (destruct Hd as [<-|Hd];
            [split; [reflexivity|]; split; [discriminate|];
             split; [discriminate|]; right; simpl; tauto|]).
    destruct Hd.
  - intros n Hn. now apply In_staged_names.
Qed.

Lemma staged_header_witness :
  columns staged_example = staged_names (columns raw_example) /\
  (forall n, In n (columns staged_example) -> str_lower n = n) /\
  (forall d, In d derived_columns -> has_col staged_example d = true) /\
  (forall n, In n (columns staged_example) ->
     exists n0, n = str_lower n0 /\ n0 <> "customerID" /\ n0 <> "gender" /\
                (In n0 (columns raw_example) \/ In n0 derived_columns)).
Proof.
  apply (staged_header decimal_literal raw_example staged_example).
  reflexivity.
Defined.

Lemma lower_case_header_lacks (df : DataFrame) (k : string) :
  (forall n, In n (columns df) -> str_lower n = n) ->
  str_lower k <> k -> has_col df k = false.
Proof.
  intros Hlow Hk. destruct (has_col df k) eqn:E; [|reflexivity].
  apply has_col_In in E. apply Hlow in E. congruence.
Qed.

(** X4.  [transform_data] cannot be run on its own output: the staged
    header is lower-case, so the first lookup, [df['TotalCharges']], raises
    [KeyError]. *)
Theorem transform_not_rerunnable parse parse' (raw staged : DataFrame) :
  transform_data parse raw = Ok staged ->
  transform_data parse' staged = Raise (KeyError "TotalCharges").
Proof.
  intros H. pose proof (staged_names_lower_case _ _ _ H) as Hlow.
  unfold transform_data.
  rewrite (has_col_false_getcol staged "TotalCharges"); [reflexivity|].
  apply lower_case_header_lacks; [exact Hlow | discriminate].
Qed.

Lemma transform_not_rerunnable_witness :
  transform_data decimal_literal staged_example
  = Raise (KeyError "TotalCharges").
Proof.
  apply (transform_not_rerunnable decimal_literal decimal_literal raw_example).
  reflexivity.
Defined.

(** X5.  On the output of [transform_data], check 2 of [validate] counts
    the missing tenure values but reports [MonthlyCharges] and
    [TotalCharges] as absent columns: it looks them up under their raw
    spelling, and the staged header is lower-case. *)
Theorem check_missing_on_staged parse (raw staged : DataFrame) :
  transform_data parse raw = Ok staged ->
  exists ten,
    getcol staged "tenure" = Ok ten /\
    check_missing staged
    = Ok [("tenure", Some (null_count ten)); ("MonthlyCharges", None);
          ("TotalCharges", None)].
Proof.
  intros H. pose proof (staged_names_lower_case _ _ _ H) as Hlow.
  apply transform_data_columns in H.
  destruct H as (tc & ten & mc & ct & tg & seg & _ & _ & _ & _ & _ & _
                 & _ & I2 & _).
  assert (Hten : has_col staged "tenure" = true).
  { apply has_col_In. apply (in_map fst) in I2. exact I2. }
  pose proof Hten as Hget. apply has_col_getcol in Hget.
  destruct Hget as [c Hc]. exists c. split; [exact Hc|].
  unfold check_missing. rewrite Hten, Hc.
  rewrite (lower_case_header_lacks staged "MonthlyCharges" Hlow)
    by discriminate.
  rewrite (lower_case_header_lacks staged "TotalCharges" Hlow)
    by discriminate.
  reflexivity.
Qed.

Lemma check_missing_on_staged_witness :
  exists ten,
    getcol staged_example "tenure" = Ok ten /\
    check_missing staged_example
    = Ok [("tenure", Some (null_count ten)); ("MonthlyCharges", None);
          ("TotalCharges", None)].
Proof.
  apply (check_missing_on_staged decimal_literal raw_example staged_example).
  reflexivity.
Defined.

(** ** Buckets and indicators *)

Lemma searchsorted_finite (side_right : bool) (bins : list bound) (q : Q) :
  searchsorted_number side_right bins (Finite q)
  = searchsorted side_right bins q.
Proof.
  induction bins as [|b bs IH]; simpl; [reflexivity|]. now rewrite IH.
Qed.

Lemma cut_number_finite bins labels right (q : Q) :
  cut_cell bins labels right (CNum q)
  = Ok (cut_number bins labels right (Finite q)).
Proof.
  unfold cut_cell, cut_number. rewrite searchsorted_finite.
  destruct (_ || _); [reflexivity|].
  destruct (nth_error labels _); reflexivity.
Qed.

(** X6.  Which values [pd.cut], as [transform_data] calls it, leaves
    without a bucket.  A finite tenure has no tenure group exactly when it
    is negative, and a finite monthly charge has no segment exactly when
    it is zero or negative; a missing value has neither; a string makes
    [pd.cut] raise.  On the infinities, which the frames of the model do
    not hold: a tenure of plus or minus infinity has no group, the last
    bucket being open above; a charge of minus infinity has no segment and
    a charge of plus infinity is "High". *)
Theorem bucket_missing_iff :
  (forall x,
      (cut_cell tenure_bins tenure_labels false x = Ok CNull
       <-> x = CNull \/ exists v, x = CNum v /\ v < 0) /\
      (cut_cell charge_bins charge_labels true x = Ok CNull
       <-> x = CNull \/ exists v, x = CNum v /\ v <= 0)) /\
  (forall s,
      cut_cell tenure_bins tenure_labels false (CStr s) = Raise TypeError /\
      cut_cell charge_bins charge_labels true (CStr s) = Raise TypeError) /\
  (forall q,
      cut_cell tenure_bins tenure_labels false (CNum q)
      = Ok (cut_number tenure_bins tenure_labels false (Finite q)) /\
      cut_cell charge_bins charge_labels true (CNum q)
      = Ok (cut_number charge_bins charge_labels true (Finite q))) /\
  (forall v,
      cut_number tenure_bins tenure_labels false v = CNull
      <-> (exists negative, v = Infinite negative)
          \/ exists q, v = Finite q /\ q < 0) /\
  (forall v,
      cut_number charge_bins charge_labels true v = CNull
      <-> v = Infinite true \/ exists q, v = Finite q /\ q <= 0) /\
  cut_number charge_bins charge_labels true (Infinite false) = CStr "High".
Proof.
  assert (T : forall v,
             tenure_bucket_spec v = CNull <-> v < 0).
  { intros v. pose proof (tenure_bucket_intervals v) as (I0 & I1 & I2 & I3 & I4).
    split; [|exact I0]. intros H.
    destruct (Qlt_le_dec v 0) as [L|L]; [exact L|]. exfalso.
    destruct (Qlt_le_dec v 13) as [L1|L1];
      [rewrite (I1 L L1) in H; discriminate|].
    destruct (Qlt_le_dec v 37) as [L2|L2];
      [rewrite (I2 L1 L2) in H; discriminate|].
    destruct (Qlt_le_dec v 61) as [L3|L3];
      [rewrite (I3 L2 L3) in H; discriminate|].
    rewrite (I4 L3) in H. discriminate. }
  assert (C : forall v,
             charge_segment_spec v = CNull <-> v <= 0).
  { intros v. pose proof (charge_segment_intervals v) as (I0 & I1 & I2 & I3).
    split; [|exact I0]. intros H.
    destruct (Qlt_le_dec 0 v) as [L|L]; [|exact L]. exfalso.
    destruct (Qlt_le_dec 30 v) as [L1|L1];
      [|rewrite (I1 L L1) in H; discriminate].
    destruct (Qlt_le_dec 70 v) as [L2|L2];
      [|rewrite (I2 L1 L2) in H; discriminate].
    rewrite (I3 L2) in H. discriminate. }
  split; [|split; [|split; [|split; [|split]]]].
  - intros x. split.
    + destruct x as [|v|s].
      * split; auto.
      * rewrite tenure_cut_spec. split.
        -- intros [= H]. right. exists v. split; [reflexivity | now apply T].
        -- intros [H|(w & [= <-] & L)]; [discriminate|].
           f_equal. now apply T.
      * split; [discriminate|]. intros [H|(w & H & _)]; discriminate.
    + destruct x as [|v|s].
      * split; auto.
      * rewrite charge_cut_spec. split.
        -- intros [= H]. right. exists v. split; [reflexivity | now apply C].
        -- intros [H|(w & [= <-] & L)]; [discriminate|].
           f_equal. now apply C.
      * split; [discriminate|]. intros [H|(w & H & _)]; discriminate.
  - intros s. split; reflexivity.
  - intros q. split; apply cut_number_finite.
  - intros [q|[|]].
    + pose proof (cut_number_finite tenure_bins tenure_labels false q) as E.
      rewrite tenure_cut_spec in E. injection E as <-. rewrite T.
      split.
      * intros L. right. eauto.
      * intros [[n H]|(w & [= <-] & L)]; [discriminate | exact L].
    + split; [intros _; left; eauto | reflexivity].
    + split; [intros _; left; eauto | reflexivity].
  - intros [q|[|]].
    + pose proof (cut_number_finite charge_bins charge_labels true q) as E.
      rewrite charge_cut_spec in E. injection E as <-. rewrite C.
      split.
      * intros L. right. eauto.
      * intros [H|(w & [= <-] & L)]; [discriminate | exact L].
    + split; [intros _; left; reflexivity | reflexivity].
    + split; [discriminate|].
      intros [H|(w & H & _)]; discriminate.
  - reflexivity.
Qed.

Lemma dict_get_In {V : Type} (d : list (string * V)) (k : string) (v : V) :
  dict_get d k = Some v -> In (k, v) d.
Proof.
  induction d as [|[k' v'] d IH]; simpl; [discriminate|].
  destruct (String.eqb k' k) eqn:E.
  - apply String.eqb_eq in E. intros [= ->]. subst. now left.
  - auto.
Qed.

Lemma map_cell_cases (d : list (string * Z)) (x : cell) :
  map_cell d x = CNull
  \/ exists s v, x = CStr s /\ In (s, v) d /\ map_cell d x = CNum (inject_Z v).
Proof.
  destruct x as [|q|s]; simpl; auto.
  destruct (dict_get d s) as [v|] eqn:E; auto.
  right. exists s, v. auto using dict_get_In.
Qed.

(** X7.  The internet-service indicator is 1 for "DSL" and "Fiber optic"
    only, 0 for "No" only; the multi-line indicator is 1 for "Yes" only, 0
    for "No" and "No phone service" only; every other value, a missing one
    included, gives a missing indicator.  The staged columns
    [has_internet_service] and [is_multi_line_user] are these maps of the
    raw columns. *)
Theorem indicator_columns :
  (forall x,
      (map_cell internet_service_map x = CNum 1
       <-> x = CStr "DSL" \/ x = CStr "Fiber optic") /\
      (map_cell internet_service_map x = CNum 0 <-> x = CStr "No") /\
      (map_cell multiple_lines_map x = CNum 1 <-> x = CStr "Yes") /\
      (map_cell multiple_lines_map x = CNum 0
       <-> x = CStr "No" \/ x = CStr "No phone service") /\
      (map_cell internet_service_map x = CNum 1
       \/ map_cell internet_service_map x = CNum 0
       \/ map_cell internet_service_map x = CNull) /\
      (map_cell multiple_lines_map x = CNum 1
       \/ map_cell multiple_lines_map x = CNum 0
       \/ map_cell multiple_lines_map x = CNull)) /\
  (forall parse raw,
      (readable_raw raw = true ->
       exists staged, transform_data parse raw = Ok staged) /\
      (forall staged,
          transform_data parse raw = Ok staged ->
          exists isv ml,
            getcol raw "InternetService" = Ok isv /\
            getcol raw "MultipleLines" = Ok ml /\
            In ("has_internet_service",
                map (map_cell internet_service_map) isv) staged /\
            In ("is_multi_line_user", map (map_cell multiple_lines_map) ml)
               staged)).
Proof.
  split.
  - intros x.
    pose proof (map_cell_cases internet_service_map x) as Hi.
    pose proof (map_cell_cases multiple_lines_map x) as Hm.
    repeat split.
    + intros H. destruct Hi as [Hi|(s & v & -> & Hin & Hv)]; [congruence|].
      simpl in Hin.
      destruct Hin as [[= <- <-]|[[= <- <-]|[[= <- <-]|[]]]]; auto.
      rewrite Hv in H. discriminate.
    + intros [->| ->]; reflexivity.
    + intros H. destruct Hi as [Hi|(s & v & -> & Hin & Hv)]; [congruence|].
      simpl in Hin.
      destruct Hin as [[= <- <-]|[[= <- <-]|[[= <- <-]|[]]]]; auto;
        rewrite Hv in H; discriminate.
    + intros ->. reflexivity.
    + intros H. destruct Hm as [Hm|(s & v & -> & Hin & Hv)]; [congruence|].
      simpl in Hin.
      destruct Hin as [[= <- <-]|[[= <- <-]|[[= <- <-]|[]]]]; auto;
        rewrite Hv in H; discriminate.
    + intros ->. reflexivity.
    + intros H. destruct Hm as [Hm|(s & v & -> & Hin & Hv)]; [congruence|].
      simpl in Hin.
      destruct Hin as [[= <- <-]|[[= <- <-]|[[= <- <-]|[]]]]; auto.
      rewrite Hv in H. discriminate.
    + intros [->| ->]; reflexivity.
    + destruct Hi as [Hi|(s & v & -> & Hin & Hv)]; [auto|].
      simpl in Hin.
      destruct Hin as [[= <- <-]|[[= <- <-]|[[= <- <-]|[]]]]; auto.
    + destruct Hm as [Hm|(s & v & -> & Hin & Hv)]; [auto|].
      simpl in Hin.
      destruct Hin as [[= <- <-]|[[= <- <-]|[[= <- <-]|[]]]]; auto.
  - intros parse raw. split; [apply transform_data_total|].
    intros staged H. apply transform_data_inv in H.
    destruct H as (tc & ten & mc & isv & ml & ct & tg & seg & post & _ & _
                   & _ & Hisv & Hml & _ & _ & _ & -> & _ & _ & _ & _ & _
                   & P6 & P7 & _).
    exists isv, ml. repeat split; auto.
    + exact (In_lower_columns _ _ _ (getcol_In _ _ _ P6)).
    + exact (In_lower_columns _ _ _ (getcol_In _ _ _ P7)).
Qed.

Lemma indicator_columns_witness :
  (exists staged, transform_data decimal_literal raw_example = Ok staged) /\
  In ("has_internet_service", [CNum 1; CNum 0; CNull]) staged_example /\
  In ("is_multi_line_user", [CNum 1; CNum 0; CNull]) staged_example.
Proof.
  destruct indicator_columns as [_ H].
  destruct (H decimal_literal raw_example) as [T S].
  split; [apply T; reflexivity|].
  destruct (S staged_example eq_refl) as (isv & ml & Hisv & Hml & I1 & I2).
  vm_compute in Hisv, Hml. injection Hisv as <-. injection Hml as <-.
  split; [exact I1 | exact I2].
Defined.

(** ** Validation of a freshly staged frame *)

Lemma getcol_lower_columns (df : DataFrame) (name : string) :
  str_lower name = name -> no_case_clash df name ->
  getcol (lower_columns df) name = getcol df name.
Proof.
  unfold no_case_clash, columns. intros Hname Hclash.
  induction df as [|[m d] df IH]; simpl; [reflexivity|].
  destruct (String.eqb m name) eqn:E.
  - apply String.eqb_eq in E. subst m. rewrite Hname.
    now rewrite String.eqb_refl.
  - destruct (String.eqb (str_lower m) name) eqn:E'.
    + apply String.eqb_eq in E'. apply String.eqb_neq in E.
      exfalso. apply E. apply Hclash; simpl; auto.
    + apply IH. intros n Hn. apply Hclash. simpl. auto.
Qed.

(** The frame just before the names are lower-cased: its header and its
    derived columns. *)
Lemma transform_data_post parse (raw staged : DataFrame) :
  transform_data parse raw = Ok staged ->
  exists ten mc ct tg seg post,
    staged = lower_columns post /\
    columns post
    = filter (fun n => negb (String.eqb n "gender"))
        (filter (fun n => negb (String.eqb n "customerID"))
           (fold_left add_name derived_columns (columns raw))) /\
    getcol raw "tenure" = Ok ten /\
    getcol raw "MonthlyCharges" = Ok mc /\
    getcol raw "Contract" = Ok ct /\
    cut tenure_bins tenure_labels false ten = Ok tg /\
    cut charge_bins charge_labels true mc = Ok seg /\
    getcol post "tenure_group" = Ok tg /\
    getcol post "monthly_charge_segment" = Ok seg /\
    getcol post "contract_type_code" = Ok (series_map contract_map ct).
Proof.
  unfold transform_data. intros H.
  inv_bind H. rename a into tc, Ha into Htc.
  inv_bind H. rewrite getcol_setcol_same in Ha. injection Ha as <-.
  inv_bind H. rename a into ten, Ha into Hten.
  inv_bind H. rename a into tg, Ha into Htg.
  inv_bind H. rename a into mc, Ha into Hmc.
  inv_bind H. rename a into seg, Ha into Hseg.
  inv_bind H. rename a into isv, Ha into Hisv.
  inv_bind H. rename a into ml, Ha into Hml.
  inv_bind H. rename a into ct, Ha into Hct.
  inv_bind H. rename a into post, Ha into Hdrop.
  injection H as <-.
  apply drop_two in Hdrop.
  getcol_norm_in Hten. getcol_norm_in Hmc. getcol_norm_in Hct.
  exists ten, mc, ct, tg, seg, post.
  repeat match goal with |- _ /\ _ => split end; auto; subst post.
  - rewrite !columns_drop_one, !columns_setcol, columns_fillna_dict,
      columns_setcol.
    rewrite (add_name_present (columns raw) "TotalCharges")
      by (eapply getcol_has_col; exact Htc).
    reflexivity.
  - getcol_norm. apply getcol_setcol_same.
  - getcol_norm. apply getcol_setcol_same.
  - getcol_norm. apply getcol_setcol_same.
Qed.

Lemma no_case_clash_post (raw_names : list string) (post : DataFrame)
    (name : string) :
  columns post
  = filter (fun n => negb (String.eqb n "gender"))
      (filter (fun n => negb (String.eqb n "customerID"))
         (fold_left add_name derived_columns raw_names)) ->
  (forall n, In n raw_names -> str_lower n = name -> n = name) ->
  str_lower name = name ->
  no_case_clash post name.
Proof.
  intros Hcols Hraw Hname n Hn Hlow. rewrite Hcols in Hn.
  apply filter_In in Hn. destruct Hn as [Hn _].
  apply filter_In in Hn. destruct Hn as [Hn _].
  apply In_fold_add_name in Hn. destruct Hn as [Hn|Hn]; [auto|].
  assert (E : str_lower n = n).
  { simpl in Hn.
    repeat (destruct Hn as [<-|Hn]; [reflexivity|]). destruct Hn. }
  congruence.
Qed.

Lemma In_insert_sorted {A : Type} (leb : A -> A -> bool) (x y : A)
    (l : list A) :
  In y (insert_sorted leb x l) <-> y = x \/ In y l.
Proof.
  induction l as [|z zs IH]; simpl.
  - intuition.
  - destruct (leb x z); simpl; [intuition|]. rewrite IH. intuition.
Qed.

Lemma In_sort_by {A : Type} (leb : A -> A -> bool) (y : A) (l : list A) :
  In y (sort_by leb l) <-> In y l.
Proof.
  unfold sort_by. induction l as [|x xs IH]; simpl; [tauto|].
  rewrite In_insert_sorted, IH. intuition.
Qed.

Lemma In_numbers (q : Q) (c : column) : In q (numbers c) <-> In (CNum q) c.
Proof.
  unfold numbers. rewrite in_flat_map. split.
  - intros (x & Hx & Hq). destruct x; simpl in Hq; try tauto.
    destruct Hq as [<-|[]]. exact Hx.
  - intros H. exists (CNum q). simpl. auto.
Qed.

Lemma filter_nil {A : Type} (f : A -> bool) (l : list A) :
  (forall x, In x l -> f x = false) -> filter f l = [].
Proof.
  induction l as [|x xs IH]; simpl; [reflexivity|].
  intros H. rewrite (H x) by auto. apply IH. auto.
Qed.

Lemma contract_codes_range (ct : column) (x : cell) :
  In x (series_map contract_map ct) ->
  x = CNull \/ x = CNum 0 \/ x = CNum 1 \/ x = CNum 2.
Proof.
  unfold series_map. rewrite in_map_iff. intros (y & <- & _).
  destruct (map_cell_cases contract_map y) as [H|(s & v & -> & Hin & Hv)];
    [auto|].
  rewrite Hv. simpl in Hin.
  destruct Hin as [[= <- <-]|[[= <- <-]|[[= <- <-]|[]]]]; auto.
Qed.

(** X8.  Check 6 of [validate] never finds an invalid code in a frame that
    [transform_data] has just staged, and does not raise on it: the codes
    it lists are among 0, 1 and 2.  (The raw header must not already hold
    another spelling of [contract_type_code].) *)
Theorem staged_codes_pass_check py_int parse (raw staged : DataFrame) :
  no_case_clash raw "contract_type_code" ->
  transform_data parse raw = Ok staged ->
  exists codes,
    check_contract_codes py_int staged = Ok (Codes codes []) /\
    Forall (fun c => c = CNum 0 \/ c = CNum 1 \/ c = CNum 2) codes.
Proof.
  intros Hclash H. apply transform_data_post in H.
  destruct H as (ten & mc & ct & tg & seg & post & -> & Hcols & _ & _ & Hct
                 & _ & _ & _ & _ & Hcode).
  assert (Hget : getcol (lower_columns post) "contract_type_code"
                 = Ok (series_map contract_map ct)).
  { rewrite getcol_lower_columns; [exact Hcode | reflexivity |].
    eapply no_case_clash_post; [exact Hcols | exact Hclash | reflexivity]. }
  unfold check_contract_codes.
  rewrite (getcol_has_col _ _ _ Hget), Hget. cbn [bind].
  set (u := unique cell_eqb (dropna (series_map contract_map ct))).
  assert (Hu : Forall (fun c => c = CNum 0 \/ c = CNum 1 \/ c = CNum 2) u).
  { apply Forall_unique. apply Forall_forall. intros x Hx.
    unfold dropna in Hx. apply filter_In in Hx. destruct Hx as [Hx Hn].
    apply contract_codes_range in Hx.
    destruct Hx as [->|Hx]; [discriminate | exact Hx]. }
  assert (Hs : Forall (fun x => is_str x = false) u).
  { eapply Forall_impl; [|exact Hu].
    intros x [->|[->| ->]]; reflexivity. }
  rewrite (py_sorted_numeric u Hs). cbn [bind].
  rewrite invalid_codes_numeric. cbn [bind].
  assert (Hq : forall q, In q (sort_by Qle_bool (numbers u)) ->
                         q = 0 \/ q = 1 \/ q = 2).
  { intros q Hq. apply In_sort_by, In_numbers in Hq.
    rewrite Forall_forall in Hu. destruct (Hu _ Hq) as [E|[E|E]];
      injection E as ->; auto. }
  rewrite filter_nil.
  - eexists. split; [reflexivity|].
    apply Forall_forall. intros x Hx. apply in_map_iff in Hx.
    destruct Hx as (q & <- & Hx). destruct (Hq q Hx) as [->|[->| ->]]; auto.
  - intros q Hx. destruct (Hq q Hx) as [->|[->| ->]]; reflexivity.
Qed.

Lemma staged_codes_pass_check_witness :
  exists codes,
    check_contract_codes decimal_int staged_example = Ok (Codes codes []) /\
    Forall (fun c => c = CNum 0 \/ c = CNum 1 \/ c = CNum 2) codes.
Proof.
  apply (staged_codes_pass_check decimal_int decimal_literal raw_example
           staged_example).
  - intros n Hn E. simpl in Hn.
    repeat (destruct Hn as [<-|Hn]; [discriminate E|]). destruct Hn.
  - reflexivity.
Defined.

Lemma cut_cell_label bins labels right (x y : cell) :
  cut_cell bins labels right x = Ok y ->
  y = CNull \/ exists l, In l labels /\ y = CStr l.
Proof.
  destruct x as [|v|s]; simpl.
  - intros [= <-]. auto.
  - destruct (_ || _); [intros [= <-]; auto|].
    destruct (nth_error labels _) as [l|] eqn:E; intros [= <-]; auto.
    right. exists l. split; [eapply nth_error_In; exact E | reflexivity].
  - discriminate.
Qed.

Lemma cut_labels bins labels right (c out : column) :
  cut bins labels right c = Ok out ->
  Forall (fun y => y = CNull \/ exists l, In l labels /\ y = CStr l) out.
Proof.
  intros H. apply cut_cells in H.
  induction H as [|x y xs ys Hxy _ IH]; constructor; auto.
  eapply cut_cell_label; exact Hxy.
Qed.

Lemma unique_values_labels (labels : list string) (c : column) :
  Forall (fun y => y = CNull \/ exists l, In l labels /\ y = CStr l) c ->
  Forall (fun y => exists l, In l labels /\ y = CStr l)
         (unique cell_eqb (dropna c)).
Proof.
  intros H. apply Forall_unique. apply Forall_forall. intros x Hx.
  unfold dropna in Hx. apply filter_In in Hx. destruct Hx as [Hx Hn].
  rewrite Forall_forall in H. destruct (H x Hx) as [->|E];
    [discriminate | exact E].
Qed.

(** X9.  Check 5 of [validate], on a frame that [transform_data] has just
    staged, finds both segment columns and lists no value outside the
    fixed labels: "New", "Regular", "Loyal", "Champion" for the tenure
    group and "Low", "Medium", "High" for the charge segment.  (The raw
    header must not already hold another spelling of the two names.) *)
Theorem staged_segments_check parse (raw staged : DataFrame) :
  no_case_clash raw "tenure_group" ->
  no_case_clash raw "monthly_charge_segment" ->
  transform_data parse raw = Ok staged ->
  exists s1 s2,
    check_segments staged
    = Ok [("tenure_group", Some s1); ("monthly_charge_segment", Some s2)] /\
    Forall (fun y => exists l, In l tenure_labels /\ y = CStr l)
           (unique_values s1) /\
    Forall (fun y => exists l, In l charge_labels /\ y = CStr l)
           (unique_values s2).
Proof.
  intros Hc1 Hc2 H. apply transform_data_post in H.
  destruct H as (ten & mc & ct & tg & seg & post & -> & Hcols & _ & _ & _
                 & Htg & Hseg & Gtg & Gseg & _).
  assert (G1 : getcol (lower_columns post) "tenure_group" = Ok tg).
  { rewrite getcol_lower_columns; [exact Gtg | reflexivity |].
    eapply no_case_clash_post; [exact Hcols | exact Hc1 | reflexivity]. }
  assert (G2 : getcol (lower_columns post) "monthly_charge_segment" = Ok seg).
  { rewrite getcol_lower_columns; [exact Gseg | reflexivity |].
    eapply no_case_clash_post; [exact Hcols | exact Hc2 | reflexivity]. }
  unfold check_segments.
  rewrite (getcol_has_col _ _ _ G1), (getcol_has_col _ _ _ G2), G1, G2.
  cbn [bind]. eexists. eexists. split; [reflexivity|]. cbn [unique_values].
  split; apply unique_values_labels; eapply cut_labels; eassumption.
Qed.

Lemma staged_segments_check_witness :
  exists s1 s2,
    check_segments staged_example
    = Ok [("tenure_group", Some s1); ("monthly_charge_segment", Some s2)] /\
    Forall (fun y => exists l, In l tenure_labels /\ y = CStr l)
           (unique_values s1) /\
    Forall (fun y => exists l, In l charge_labels /\ y = CStr l)
           (unique_values s2).
Proof.
  apply (staged_segments_check decimal_literal raw_example staged_example).
  - intros n Hn E. simpl in Hn.
    repeat (destruct Hn as [<-|Hn]; [discriminate E|]). destruct Hn.
  - intros n Hn E. simpl in Hn.
    repeat (destruct Hn as [<-|Hn]; [discriminate E|]). destruct Hn.
  - reflexivity.
Defined.

(** ** Duplicate rows *)

Lemma filter_length_le {A : Type} (f : A -> bool) (l : list A) :
  (List.length (filter f l) <= List.length l)%nat.
Proof.
  induction l as [|x xs IH]; simpl; [lia|]. destruct (f x); simpl; lia.
Qed.

Lemma filter_length_eq {A : Type} (f : A -> bool) (l : list A) :
  List.length (filter f l) = List.length l -> filter f l = l.
Proof.
  induction l as [|x xs IH]; simpl; [reflexivity|].
  destruct (f x); simpl; intros H.
  - f_equal. apply IH. lia.
  - pose proof (filter_length_le f xs). lia.
Qed.

Lemma unique_length_le {A : Type} (eqb : A -> A -> bool) (l : list A) :
  (List.length (unique eqb l) <= List.length l)%nat.
Proof.
  induction l as [|x xs IH]; simpl; [lia|].
  pose proof (filter_length_le (fun y => negb (eqb x y)) (unique eqb xs)).
  lia.
Qed.

Lemma filter_all {A : Type} (f : A -> bool) (l : list A) :
  Forall (fun y => f y = true) l -> filter f l = l.
Proof.
  induction 1 as [|y ys Hy _ IH]; simpl; [reflexivity|].
  now rewrite Hy, IH.
Qed.

Lemma unique_distinct {A : Type} (eqb : A -> A -> bool) (l : list A) :
  ForallOrdPairs (fun x y => eqb x y = false) l -> unique eqb l = l.
Proof.
  induction 1 as [|x xs Hx _ IH]; simpl; [reflexivity|].
  rewrite IH. f_equal. apply filter_all.
  eapply Forall_impl; [|exact Hx]. intros y Hy. simpl. now rewrite Hy.
Qed.

Lemma unique_length_distinct {A : Type} (eqb : A -> A -> bool) (l : list A) :
  List.length (unique eqb l) = List.length l ->
  ForallOrdPairs (fun x y => eqb x y = false) l.
Proof.
  induction l as [|x xs IH]; simpl; intros H; [constructor|].
  pose proof (filter_length_le (fun y => negb (eqb x y)) (unique eqb xs)) as L1.
  pose proof (unique_length_le eqb xs) as L2.
  assert (E1 : List.length (unique eqb xs) = List.length xs) by lia.
  assert (E2 : List.length (filter (fun y => negb (eqb x y)) (unique eqb xs))
               = List.length (unique eqb xs)) by lia.
  pose proof (IH E1) as Hxs.
  apply filter_length_eq in E2. rewrite (unique_distinct eqb xs Hxs) in E2.
  constructor; [|exact Hxs].
  apply Forall_forall. intros y Hy. rewrite <- E2 in Hy.
  apply filter_In in Hy. destruct Hy as [_ Hy].
  now apply negb_true_iff in Hy.
Qed.

Lemma rows_length (df : DataFrame) : List.length (rows df) = nrows df.
Proof. unfold rows. now rewrite length_map, length_seq. Qed.

(** X10.  Check 3 of [validate]: the number of unique rows never exceeds
    the number of rows, it is at least one when there is a row, and the two
    are equal, so that "No duplicate rows detected" is printed, exactly
    when no two rows of the staged frame are equal. *)
Theorem duplicate_check (df : DataFrame) :
  (unique_row_count df <= nrows df)%nat /\
  ((0 < nrows df)%nat -> (0 < unique_row_count df)%nat) /\
  (unique_row_count df = nrows df
   <-> ForallOrdPairs (fun r1 r2 => row_eqb r1 r2 = false) (rows df)).
Proof.
  unfold unique_row_count. rewrite <- rows_length. split; [|split].
  - apply unique_length_le.
  - destruct (rows df); simpl; lia.
  - split.
    + apply unique_length_distinct.
    + intros H. now rewrite (unique_distinct _ _ H).
Qed.

(** ** The contract-code check on numeric codes *)

Lemma cell_eqb_sym (a b : cell) : cell_eqb a b = cell_eqb b a.
Proof.
  destruct a as [|x|s], b as [|y|t]; simpl; auto.
  - destruct (Qeq_bool x y) eqn:E, (Qeq_bool y x) eqn:E'; auto.
    + apply Qeq_bool_iff in E. symmetry in E. apply Qeq_bool_iff in E.
      congruence.
    + apply Qeq_bool_iff in E'. symmetry in E'. apply Qeq_bool_iff in E'.
      congruence.
  - apply String.eqb_sym.
Qed.

Lemma cell_eqb_trans (a b c : cell) :
  cell_eqb a b = true -> cell_eqb b c = true -> cell_eqb a c = true.
Proof.
  destruct a as [|x|s], b as [|y|t], c as [|z|u]; simpl; auto;
    try discriminate.
  - rewrite !Qeq_bool_iff. intros H1 H2. now rewrite H1.
  - rewrite !String.eqb_eq. congruence.
Qed.

Lemma unique_covers (l : list cell) (x : cell) :
  In x l -> exists y, In y (unique cell_eqb l) /\ cell_eqb y x = true.
Proof.
  induction l as [|a l IH]; simpl; [tauto|].
  intros [->|H].
  - exists x. split; [now left | apply cell_eqb_refl].
  - destruct (IH H) as (y & Hy & Eyx).
    destruct (cell_eqb a y) eqn:Eay.
    + exists a. split; [now left | eapply cell_eqb_trans; eassumption].
    + exists y. split; [|exact Eyx]. right.
      apply filter_In. split; [exact Hy | now rewrite Eay].
Qed.

Lemma truncate_whole (q : Q) (z : Z) :
  q == inject_Z z -> Z.quot (Qnum q) (Zpos (Qden q)) = z.
Proof.
  unfold Qeq. simpl. rewrite Z.mul_1_r. intros ->.
  apply Z.quot_mul. discriminate.
Qed.

(** X11.  Check 6 on a code column that holds only blanks and finite
    numbers does not raise.  It lists no missing value, every code it
    reports as invalid is a value of the column whose integer part is
    outside [{0, 1, 2}], and every whole-number code of the column outside
    [{0, 1, 2}] is reported.  (On an infinite code [int()] raises
    [OverflowError], see [float_to_int]; a [CNum] is finite.) *)
Theorem numeric_codes_check py_int (df : DataFrame) (col : column) :
  getcol df "contract_type_code" = Ok col ->
  existsb is_str col = false ->
  exists codes invalid,
    check_contract_codes py_int df = Ok (Codes codes invalid) /\
    Forall (fun c => isna c = false) codes /\
    (forall c, In c invalid ->
       In c codes /\ In c col /\
       exists q, c = CNum q
                 /\ in_allowed (Z.quot (Qnum q) (Zpos (Qden q))) = false) /\
    (forall z, In (CNum (inject_Z z)) col -> in_allowed z = false ->
       exists q, In (CNum q) invalid /\ q == inject_Z z).
Proof.
  intros Hcol Hstr. unfold check_contract_codes.
  rewrite (getcol_has_col _ _ _ Hcol), Hcol. cbn [bind].
  set (u := unique cell_eqb (dropna col)).
  apply no_strings_Forall in Hstr.
  assert (Hu : forall x, In x u -> In x col /\ isna x = false).
  { intros x Hx. apply In_unique in Hx. unfold dropna in Hx.
    apply filter_In in Hx. destruct Hx as [Hx Hn].
    split; [exact Hx | now apply negb_true_iff in Hn]. }
  assert (Hs : Forall (fun x => is_str x = false) u).
  { apply Forall_forall. intros x Hx. rewrite Forall_forall in Hstr.
    apply Hstr. now apply Hu. }
  rewrite (py_sorted_numeric u Hs). cbn [bind].
  rewrite invalid_codes_numeric. cbn [bind].
  eexists. eexists. split; [reflexivity|]. split; [|split].
  - apply Forall_forall. intros c Hc. apply in_map_iff in Hc.
    destruct Hc as (q & <- & _). reflexivity.
  - intros c Hc. apply in_map_iff in Hc. destruct Hc as (q & <- & Hq).
    apply filter_In in Hq. destruct Hq as [Hq Hbad].
    split; [apply in_map; exact Hq|].
    apply In_sort_by, In_numbers in Hq.
    split; [now apply Hu|].
    exists q. split; [reflexivity | now apply negb_true_iff in Hbad].
  - intros z Hz Hbad.
    assert (Hd : In (CNum (inject_Z z)) (dropna col)).
    { unfold dropna. apply filter_In. split; [exact Hz | reflexivity]. }
    destruct (unique_covers _ _ Hd) as (y & Hy & Eq).
    destruct y as [|q|s]; simpl in Eq; try discriminate.
    apply Qeq_bool_iff in Eq.
    exists q. split; [|exact Eq].
    apply in_map. apply filter_In. split.
    + apply In_sort_by, In_numbers. exact Hy.
    + rewrite (truncate_whole q z Eq). now rewrite Hbad.
Qed.

Lemma numeric_codes_check_witness :
  exists codes invalid,
    check_contract_codes decimal_int
      [("contract_type_code", [CNum 2; CNum 7; CNull; CNum 1.5])]
    = Ok (Codes codes invalid) /\
    Forall (fun c => isna c = false) codes /\
    (forall c, In c invalid ->
       In c codes /\ In c [CNum 2; CNum 7; CNull; CNum 1.5] /\
       exists q, c = CNum q
                 /\ in_allowed (Z.quot (Qnum q) (Zpos (Qden q))) = false) /\
    (forall z, In (CNum (inject_Z z)) [CNum 2; CNum 7; CNull; CNum 1.5] ->
       in_allowed z = false ->
       exists q, In (CNum q) invalid /\ q == inject_Z z).
Proof.
  apply (numeric_codes_check decimal_int
           [("contract_type_code", [CNum 2; CNum 7; CNull; CNum 1.5])]);
    reflexivity.
Defined.

(** ** The extractor on canonical input *)

Lemma first_list_of_dicts_records (l : list pyval) :
  forallb is_dict l = true -> first_list_of_dicts l = None.
Proof.
  induction l as [|x xs IH]; simpl; [reflexivity|].
  intros H. apply andb_true_iff in H. destruct H as [Hx Hxs].
  destruct x; try discriminate. auto.
Qed.

(** X12.  A list of records is already in canonical shape: the extractor
    returns it unchanged, as a list or as a tuple; a tuple is read exactly
    like the list of its items; and the extractor applied to its own
    result, when that is a list of records, gives it back. *)
Theorem extract_canonical :
  (forall l, forallb is_dict l = true ->
             _extract_data_from_response (PList l) = l /\
             _extract_data_from_response (PTuple l) = l) /\
  (forall items, _extract_data_from_response (PTuple items)
                 = _extract_data_from_response (PList items)) /\
  (forall res,
      forallb is_dict (_extract_data_from_response res) = true ->
      _extract_data_from_response (PList (_extract_data_from_response res))
      = _extract_data_from_response res).
Proof.
  assert (C : forall l, forallb is_dict l = true ->
                        _extract_data_from_response (PList l) = l /\
                        _extract_data_from_response (PTuple l) = l).
  { intros l H. pose proof (first_list_of_dicts_records l H) as F.
    unfold _extract_data_from_response, sequence_case.
    cbn [getattr_data dict_data_list]. rewrite F.
    destruct l as [|x xs]; [split; reflexivity|].
    simpl in H. apply andb_true_iff in H. destruct H as [Hx _].
    destruct x; try discriminate. split; reflexivity. }
  split; [exact C|]. split; [reflexivity|].
  intros res H. now apply C.
Qed.

Lemma extract_canonical_witness :
  _extract_data_from_response (PList [PDict [("id", PNum 1)]; PDict []])
  = [PDict [("id", PNum 1)]; PDict []].
Proof.
  destruct extract_canonical as [C _].
  apply (C [PDict [("id", PNum 1)]; PDict []]). reflexivity.
Defined.

(** ** Column lookup up to case *)

Lemma lc_get_Some (cols : list string) (key c : string) :
  lc_get cols key = Some c -> In c cols /\ str_lower c = key.
Proof.
  induction cols as [|x xs IH]; simpl; [discriminate|].
  destruct (lc_get xs key) as [later|] eqn:E.
  - intros [= ->]. destruct (IH eq_refl). auto.
  - destruct (String.eqb (str_lower x) key) eqn:Ex; [|discriminate].
    intros [= ->]. apply String.eqb_eq in Ex. auto.
Qed.

Lemma lc_get_None (cols : list string) (key : string) :
  lc_get cols key = None <-> forall c, In c cols -> str_lower c <> key.
Proof.
  induction cols as [|x xs IH]; simpl.
  - split; [tauto | reflexivity].
  - destruct (lc_get xs key) as [later|] eqn:E.
    + split; [discriminate|]. intros H. exfalso.
      destruct (lc_get_Some _ _ _ E) as [Hin Hl]. apply (H later); auto.
    + destruct (String.eqb (str_lower x) key) eqn:Ex.
      * split; [discriminate|]. intros H. exfalso.
        apply String.eqb_eq in Ex. apply (H x); auto.
      * apply String.eqb_neq in Ex. split; [|reflexivity].
        intros _ c [<-|Hc]; [exact Ex|]. now apply IH.
Qed.

Lemma find_col_some (df : DataFrame) (candidates : list string) (c : string) :
  _find_col df candidates = Some c ->
  In c (columns df) /\ In (str_lower c) (map str_lower candidates).
Proof.
  induction candidates as [|cand rest IH]; simpl; [discriminate|].
  destruct (lc_get (columns df) (str_lower cand)) as [c0|] eqn:E.
  - intros [= <-]. destruct (lc_get_Some _ _ _ E) as [Hin Hl]. auto.
  - intros H. destruct (IH H). auto.
Qed.

(** X13.  [_find_col] returns a column of the frame whose name equals one
    of the candidates up to case, so that the column can then be read; it
    returns [None] exactly when no column matches any candidate up to
    case. *)
Theorem find_col_spec (df : DataFrame) (candidates : list string) :
  (forall c, _find_col df candidates = Some c ->
     In c (columns df) /\ has_col df c = true /\
     exists cand, In cand candidates /\ str_lower c = str_lower cand) /\
  (_find_col df candidates = None <->
   forall c cand, In c (columns df) -> In cand candidates ->
                  str_lower c <> str_lower cand).
Proof.
  induction candidates as [|cand rest [IHs IHn]]; simpl.
  - split; [discriminate|]. split; [tauto | reflexivity].
  - destruct (lc_get (columns df) (str_lower cand)) as [c0|] eqn:E.
    + split.
      * intros c [= <-]. destruct (lc_get_Some _ _ _ E) as [Hin Hl].
        split; [exact Hin|]. split; [now apply has_col_In|]. eauto.
      * split; [discriminate|]. intros H. exfalso.
        destruct (lc_get_Some _ _ _ E) as [Hin Hl]. apply (H c0 cand); auto.
    + rewrite lc_get_None in E. split.
      * intros c Hc. destruct (IHs c Hc) as (Hin & Hhas & cand' & Hc' & El).
        eauto 6.
      * rewrite IHn. split.
        -- intros H c cand' Hc [<-|Hcand]; [now apply E | now apply H].
        -- intros H c cand' Hc Hcand. apply H; auto.
Qed.

Lemma find_col_getcol (df : DataFrame) (candidates : list string) (c : string) :
  _find_col df candidates = Some c ->
  exists col, getcol df c = Ok col /\ col_or_empty df c = col.
Proof.
  intros H. destruct (find_col_some _ _ _ H) as [Hhas _].
  apply has_col_In, has_col_getcol in Hhas.
  destruct Hhas as [col Hcol]. exists col. split; [exact Hcol|].
  unfold col_or_empty. now rewrite Hcol.
Qed.

(** ** The churn percentage *)

Lemma count_true_le (l : list bool) : (count_true l <= List.length l)%nat.
Proof. unfold count_true. apply filter_length_le. Qed.

Lemma Qnat_le (k n : nat) : (k <= n)%nat -> Qnat k <= Qnat n.
Proof. unfold Qnat. intros H. rewrite <- Zle_Qle. lia. Qed.

Lemma Qnat_lt_0 (n : nat) : (0 < n)%nat -> 0 < Qnat n.
Proof.
  unfold Qnat. intros H. change 0 with (inject_Z 0). rewrite <- Zlt_Qlt. lia.
Qed.

Lemma share_bounds (k n : nat) :
  (k <= n)%nat -> (0 < n)%nat ->
  0 <= Qnat k / Qnat n * 100 /\ Qnat k / Qnat n * 100 <= 100.
Proof.
  intros Hk Hn. pose proof (Qnat_lt_0 n Hn) as Hpos.
  pose proof (Qnat_le k n Hk) as Hle. pose proof (Qnat_le 0 k (Nat.le_0_l k)) as H0.
  assert (L : 0 <= Qnat k / Qnat n).
  { apply Qle_shift_div_l; [exact Hpos|]. rewrite Qmult_0_l. exact H0. }
  assert (U : Qnat k / Qnat n <= 1).
  { apply Qle_shift_div_r; [exact Hpos|]. rewrite Qmult_1_l. exact Hle. }
  split; lra.
Qed.

(** X14.  On a non-empty frame whose columns all have the frame's number
    of rows, the churn percentage of the summary lies between 0 and 100. *)
Theorem churn_percentage_bounds show (df : DataFrame) (p : Q) :
  height df (nrows df) ->
  df_empty df = false ->
  kpi_churn_pct show df = Some p ->
  0 <= p /\ p <= 100.
Proof.
  intros Hh He. unfold kpi_churn_pct.
  destruct (_find_col df ["churn"]) as [c|] eqn:E; [|discriminate].
  intros [= <-]. destruct (find_col_getcol _ _ _ E) as (col & Hcol & ->).
  unfold churn_percentage. apply share_bounds.
  - rewrite <- (height_getcol _ _ _ _ Hh Hcol).
    pose proof (count_true_le (churn_flags show col)) as L.
    unfold churn_flags in L at 2. now rewrite length_map in L.
  - now apply df_empty_false_rows.
Qed.

Lemma churn_percentage_bounds_witness :
  0 <= 200 # 4 /\ 200 # 4 <= 100.
Proof.
  apply (churn_percentage_bounds show_float table_example (200 # 4)).
  - unfold height, table_example. repeat constructor.
  - reflexivity.
  - reflexivity.
Defined.

(** ** Frequency tables *)

Lemma filter_partition_length {A : Type} (f : A -> bool) (l : list A) :
  (List.length (filter f l) + List.length (filter (fun x => negb (f x)) l)
   = List.length l)%nat.
Proof.
  induction l as [|x xs IH]; simpl; [reflexivity|].
  destruct (f x); simpl; lia.
Qed.

Lemma filter_filter_comm {A : Type} (f g : A -> bool) (l : list A) :
  filter f (filter g l) = filter g (filter f l).
Proof.
  induction l as [|x xs IH]; simpl; [reflexivity|].
  destruct (f x) eqn:F, (g x) eqn:G; simpl; rewrite ?F, ?G, IH; reflexivity.
Qed.

Lemma filter_implied {A : Type} (f g : A -> bool) (l : list A) :
  (forall x, In x l -> f x = true -> g x = true) ->
  filter f (filter g l) = filter f l.
Proof.
  induction l as [|x xs IH]; simpl; intros H; [reflexivity|].
  destruct (g x) eqn:G; simpl.
  - destruct (f x); rewrite IH; auto.
  - destruct (f x) eqn:F.
    + rewrite (H x) in G; auto. discriminate.
    + apply IH. auto.
Qed.

Lemma unique_filter (p : cell -> bool) (l : list cell) :
  (forall x y, cell_eqb x y = true -> p x = p y) ->
  filter p (unique cell_eqb l) = unique cell_eqb (filter p l).
Proof.
  intros Hp. induction l as [|x xs IH]; simpl; [reflexivity|].
  destruct (p x) eqn:Px; simpl.
  - rewrite filter_filter_comm, IH. reflexivity.
  - rewrite <- IH. apply filter_implied.
    intros y _ Py. destruct (cell_eqb x y) eqn:E; [|reflexivity].
    apply Hp in E. congruence.
Qed.

Lemma cell_eqb_respects (a x y : cell) :
  cell_eqb x y = true -> cell_eqb a x = cell_eqb a y.
Proof.
  intros E. destruct (cell_eqb a x) eqn:Ex, (cell_eqb a y) eqn:Ey; auto.
  - rewrite (cell_eqb_trans _ _ _ Ex E) in Ey. discriminate.
  - rewrite cell_eqb_sym in E.
    rewrite (cell_eqb_trans _ _ _ Ey E) in Ex. discriminate.
Qed.

Lemma list_sum_cons (x : nat) (l : list nat) :
  list_sum (x :: l) = (x + list_sum l)%nat.
Proof. reflexivity. Qed.

Lemma occurrences_sum_bounded (n : nat) (l : list cell) :
  (List.length l <= n)%nat ->
  list_sum (map (occurrences l) (unique cell_eqb l)) = List.length l.
Proof.
  revert l. induction n as [|n IH]; intros l Hl.
  - destruct l; [reflexivity | simpl in Hl; lia].
  - destruct l as [|a l']; [reflexivity|].
    simpl in Hl. cbn [unique map]. rewrite list_sum_cons.
    set (rest := filter (fun y => negb (cell_eqb a y)) l').
    assert (U : filter (fun y => negb (cell_eqb a y)) (unique cell_eqb l')
                = unique cell_eqb rest).
    { apply unique_filter. intros x y E.
      now rewrite (cell_eqb_respects a x y E). }
    rewrite U.
    assert (M : map (occurrences (a :: l')) (unique cell_eqb rest)
                = map (occurrences rest) (unique cell_eqb rest)).
    { apply map_ext_in. intros v Hv. apply In_unique in Hv.
      unfold rest in Hv. apply filter_In in Hv. destruct Hv as [_ Hv].
      apply negb_true_iff in Hv.
      unfold occurrences. simpl.
      rewrite cell_eqb_sym, Hv. f_equal. unfold rest. symmetry.
      apply filter_implied. intros y _ Ey.
      rewrite (cell_eqb_respects a v y Ey) in Hv. now rewrite Hv. }
    rewrite M, IH.
    + unfold occurrences. simpl. rewrite cell_eqb_refl. simpl.
      unfold rest. pose proof (filter_partition_length (cell_eqb a) l'). lia.
    + unfold rest. pose proof (filter_length_le (fun y => negb (cell_eqb a y)) l').
      lia.
Qed.

Lemma occurrences_sum (l : list cell) :
  list_sum (map (occurrences l) (unique cell_eqb l)) = List.length l.
Proof. apply (occurrences_sum_bounded (List.length l)). lia. Qed.

Lemma ForallOrdPairs_filter {A : Type} (R : A -> A -> Prop) (f : A -> bool)
    (l : list A) :
  ForallOrdPairs R l -> ForallOrdPairs R (filter f l).
Proof.
  induction 1 as [|x xs Hx _ IH]; simpl; [constructor|].
  destruct (f x); [|exact IH]. constructor; [|exact IH].
  apply Forall_forall. intros y Hy. apply filter_In in Hy.
  rewrite Forall_forall in Hx. apply Hx. tauto.
Qed.

Lemma unique_pairwise {A : Type} (eqb : A -> A -> bool) (l : list A) :
  ForallOrdPairs (fun x y => eqb x y = false) (unique eqb l).
Proof.
  induction l as [|x xs IH]; simpl; constructor.
  - apply Forall_forall. intros y Hy. apply filter_In in Hy.
    destruct Hy as [_ Hy]. now apply negb_true_iff in Hy.
  - now apply ForallOrdPairs_filter.
Qed.

Lemma fillna_missing_occurrences (c : column) :
  occurrences (fillna (CStr "MISSING") c) (CStr "MISSING")
  = (null_count c + occurrences c (CStr "MISSING"))%nat.
Proof.
  unfold occurrences, null_count, fillna.
  induction c as [|x xs IH]; [reflexivity|].
  destruct x as [|q|s]; cbn [map filter isna cell_eqb List.length].
  - rewrite String.eqb_refl. cbn [List.length]. lia.
  - exact IH.
  - destruct (String.eqb "MISSING" s); cbn [List.length]; lia.
Qed.

(** X15.  The tenure-group and internet-service frequency tables account
    for every row: the counts add up to the length of the column, each
    count is at least one, no two rows of the table have the same value,
    no value is missing, and the "MISSING" row counts the missing values
    together with any literal "MISSING". *)
Theorem value_counts_total (c : column) :
  list_sum (map snd (value_counts c)) = List.length c /\
  Forall (fun kv => isna (fst kv) = false /\ (1 <= snd kv)%nat)
         (value_counts c) /\
  ForallOrdPairs (fun k1 k2 => cell_eqb k1 k2 = false)
                 (map fst (value_counts c)) /\
  (forall n, In (CStr "MISSING", n) (value_counts c) ->
             n = (null_count c + occurrences c (CStr "MISSING"))%nat).
Proof.
  unfold value_counts.
  set (filled := fillna (CStr "MISSING") c).
  assert (Hlen : List.length filled = List.length c)
    by (unfold filled, fillna; apply length_map).
  split; [|split; [|split]].
  - rewrite map_map. cbn [snd]. rewrite <- Hlen.
    exact (occurrences_sum filled).
  - apply Forall_forall. intros kv Hkv. apply in_map_iff in Hkv.
    destruct Hkv as (v & <- & Hv). cbn [fst snd].
    apply In_unique in Hv. split.
    + unfold filled, fillna in Hv. apply in_map_iff in Hv.
      destruct Hv as (x & <- & _). destruct x; reflexivity.
    + assert (Hin : In v (filter (cell_eqb v) filled)).
      { apply filter_In. split; [exact Hv | apply cell_eqb_refl]. }
      destruct (filter (cell_eqb v) filled); [destruct Hin | simpl; lia].
  - rewrite map_map. cbn [fst]. rewrite map_id. apply unique_pairwise.
  - intros n Hn. apply in_map_iff in Hn. destruct Hn as (v & [= -> <-] & _).
    apply fillna_missing_occurrences.
Qed.

(** ** The analysis of a fetched table *)

Lemma columns_setcol_existing (df : DataFrame) (c : string) (x : column) :
  has_col df c = true -> columns (setcol df c x) = columns df.
Proof.
  intros H. rewrite columns_setcol. now apply add_name_present.
Qed.

Lemma find_col_columns (df df' : DataFrame) (candidates : list string) :
  columns df' = columns df -> _find_col df' candidates = _find_col df candidates.
Proof.
  intros H. induction candidates as [|cand rest IH]; simpl; [reflexivity|].
  now rewrite H, IH.
Qed.

Lemma find_col_has_col (df : DataFrame) (candidates : list string) (c : string) :
  _find_col df candidates = Some c -> has_col df c = true.
Proof.
  intros H. destruct (find_col_some _ _ _ H) as [Hin _].
  now apply has_col_In.
Qed.

Lemma columns_coerce_column parse (df : DataFrame) (col : option string) :
  (forall c, col = Some c -> has_col df c = true) ->
  columns (coerce_column parse df col) = columns df.
Proof.
  intros H. destruct col as [c|]; simpl; [|reflexivity].
  apply columns_setcol_existing. now apply H.
Qed.

Lemma find_col_monthly_twice (df : DataFrame) :
  _find_col df ["monthlycharges"; "monthly_charges"; "monthlycharges";
                "monthlycharge"; "monthly_charge"]
  = _find_col df monthly_candidates.
Proof.
  unfold monthly_candidates. cbn [_find_col].
  destruct (lc_get (columns df) (str_lower "monthlycharges")); [reflexivity|].
  destruct (lc_get (columns df) (str_lower "monthly_charges")); reflexivity.
Qed.

Lemma to_numeric_no_strings parse (c : column) :
  existsb is_str (to_numeric parse c) = false.
Proof.
  unfold to_numeric. induction c as [|x xs IH]; simpl; [reflexivity|].
  rewrite IH. destruct x as [|q|s]; simpl; auto. destruct (parse s); reflexivity.
Qed.

Lemma find_col_lower_in (df : DataFrame) (candidates : list string) (c : string) :
  _find_col df candidates = Some c ->
  In (str_lower c) (map str_lower candidates).
Proof.
  intros H. now destruct (find_col_some _ _ _ H).
Qed.

Lemma fetched_columns parse show (df : DataFrame) :
  columns (fetch_table_normalize parse show df) = columns df.
Proof.
  unfold fetch_table_normalize. destruct (df_empty df); [reflexivity|].
  set (m := _find_col df _).
  set (df1 := coerce_column parse df m).
  assert (C1 : columns df1 = columns df).
  { apply columns_coerce_column. intros c Hc.
    eapply find_col_has_col. unfold m in Hc. exact Hc. }
  set (t := _find_col df _).
  set (df2 := coerce_column parse df1 t).
  assert (C2 : columns df2 = columns df).
  { unfold df2. rewrite columns_coerce_column; [exact C1|].
    intros c Hc. unfold has_col. rewrite C1.
    eapply find_col_has_col. unfold t in Hc. exact Hc. }
  destruct (_find_col df2 ["churn"]) as [ch|] eqn:E; [|exact C2].
  rewrite columns_setcol_existing; [exact C2|].
  eapply find_col_has_col. exact E.
Qed.

(** After [fetch_table] the monthly-charges column holds no string. *)
Lemma fetched_monthly_numeric parse show (df : DataFrame) (m : string) :
  df_empty df = false ->
  _find_col df monthly_candidates = Some m ->
  existsb is_str (col_or_empty (fetch_table_normalize parse show df) m) = false.
Proof.
  intros He Hm. unfold fetch_table_normalize. rewrite He.
  rewrite find_col_monthly_twice, Hm.
  set (df1 := coerce_column parse df (Some m)).
  assert (C1 : columns df1 = columns df).
  { apply columns_coerce_column. intros c [= <-].
    eapply find_col_has_col. exact Hm. }
  assert (G1 : getcol df1 m = Ok (to_numeric parse (col_or_empty df m))).
  { unfold df1. simpl. apply getcol_setcol_same. }
  pose proof (find_col_lower_in _ _ _ Hm) as Lm.
  set (t := _find_col df _).
  set (df2 := coerce_column parse df1 t).
  assert (G2 : getcol df2 m = Ok (to_numeric parse (col_or_empty df m))).
  { unfold df2. destruct t as [tc|] eqn:Et; simpl; [|exact G1].
    rewrite getcol_setcol_other; [exact G1|].
    apply String.eqb_neq. intros ->.
    apply find_col_lower_in in Et. simpl in Lm, Et.
    destruct Lm as [L|[L|[L|[L|[]]]]];
      destruct Et as [T|[T|[T|[T|[]]]]]; rewrite <- L in T; discriminate T. }
  assert (G3 : forall df3,
             df3 = match _find_col df2 ["churn"] with
                   | Some c => setcol df2 c
                                 (normalize_text show (col_or_empty df2 c))
                   | None => df2
                   end ->
             getcol df3 m = Ok (to_numeric parse (col_or_empty df m))).
  { intros df3 ->. destruct (_find_col df2 ["churn"]) as [ch|] eqn:Ech;
      [|exact G2].
    rewrite getcol_setcol_other; [exact G2|].
    apply String.eqb_neq. intros ->.
    apply find_col_lower_in in Ech. simpl in Lm, Ech.
    destruct Ech as [T|[]].
    destruct Lm as [L|[L|[L|[L|[]]]]]; rewrite <- L in T; discriminate T. }
  unfold col_or_empty at 1. rewrite (G3 _ eq_refl).
  apply to_numeric_no_strings.
Qed.

Lemma pivot_Raise show (df : DataFrame) (e : exn) :
  pivot_churn_vs_tenure show df = Raise e ->
  e = KeyError "no_churn_pct" \/ e = KeyError "churn_pct".
Proof.
  unfold pivot_churn_vs_tenure, churn_vs_tenure.
  destruct (_find_col df ["churn"]); [|discriminate].
  destruct (_find_col df tenure_group_candidates); [|discriminate].
  destruct (negb (existsb negb _)); [intros [= <-]; auto|].
  destruct (negb (existsb id _)); [intros [= <-]; auto | discriminate].
Qed.

(** X16.  On a table that went through [fetch_table], the
    average-per-contract metric cannot fail, the monthly charges having
    been coerced to numbers; [analyze_and_save] can then only raise the
    [KeyError] of the pivot step, when every row has the same churn
    flag. *)
Theorem analysis_of_fetched_table parse show (df : DataFrame) :
  (df_empty df = false ->
   exists avg, kpi_avg_monthly (fetch_table_normalize parse show df) = Ok avg) /\
  (forall e,
      analyze_and_save show (fetch_table_normalize parse show df) = Raise e ->
      e = KeyError "no_churn_pct" \/ e = KeyError "churn_pct").
Proof.
  assert (A : df_empty df = false ->
              exists avg,
                kpi_avg_monthly (fetch_table_normalize parse show df) = Ok avg).
  { intros He. unfold kpi_avg_monthly.
    rewrite !(find_col_columns df _ _ (fetched_columns parse show df)).
    destruct (_find_col df monthly_candidates) as [m|] eqn:Hm; [|eauto].
    destruct (_find_col df contract_candidates) as [c|]; [|eauto].
    unfold groupby_mean.
    rewrite (fetched_monthly_numeric parse show df m He Hm). eauto. }
  split; [exact A|].
  intros e. unfold analyze_and_save.
  destruct (df_empty (fetch_table_normalize parse show df)) eqn:E';
    [discriminate|].
  destruct (df_empty df) eqn:He.
  { unfold fetch_table_normalize in E'. rewrite He in E'. congruence. }
  destruct (A eq_refl) as [avg ->]. cbn [bind].
  destruct (pivot_churn_vs_tenure show _) as [p|e'] eqn:P; cbn [bind];
    [discriminate|].
  intros [= <-]. eapply pivot_Raise. exact P.
Qed.

Lemma analysis_of_fetched_table_witness :
  exists avg,
    kpi_avg_monthly
      (fetch_table_normalize decimal_literal show_float
         [("MonthlyCharges", [CStr "20.5"; CStr "n/a"]);
          ("Contract", [CStr "One year"; CStr "One year"])])
    = Ok avg.
Proof.
  destruct (analysis_of_fetched_table decimal_literal show_float
              [("MonthlyCharges", [CStr "20.5"; CStr "n/a"]);
               ("Contract", [CStr "One year"; CStr "One year"])]) as [A _].
  apply A. reflexivity.
Defined.

(** ** Trimming and lower-casing *)

Lemma is_space_lower (c : ascii) : is_space (lower_ascii c) = is_space c.
Proof.
  destruct c as [[] [] [] [] [] [] [] []]; reflexivity.
Qed.

Lemma lstrip_lower (s : string) : lstrip (str_lower s) = str_lower (lstrip s).
Proof.
  induction s as [|c r IH]; simpl; [reflexivity|].
  rewrite is_space_lower. destruct (is_space c); [exact IH | reflexivity].
Qed.

Lemma rstrip_lower (s : string) : rstrip (str_lower s) = str_lower (rstrip s).
Proof.
  induction s as [|c r IH]; simpl; [reflexivity|].
  rewrite IH, is_space_lower.
  destruct (rstrip r); simpl; [destruct (is_space c)|]; reflexivity.
Qed.

Lemma strip_lower (s : string) : str_strip (str_lower s) = str_lower (str_strip s).
Proof. unfold str_strip. now rewrite lstrip_lower, rstrip_lower. Qed.

Lemma rstrip_idem (s : string) : rstrip (rstrip s) = rstrip s.
Proof.
  induction s as [|c r IH]; simpl; [reflexivity|].
  destruct (rstrip r) as [|a r'] eqn:E.
  - destruct (is_space c) eqn:S; simpl; [reflexivity|]. now rewrite S.
  - simpl in *. now rewrite IH.
Qed.

(** A string that does not start with a blank. *)
Lemma lstrip_fixed_rstrip (s : string) :
  lstrip s = s -> lstrip (rstrip s) = rstrip s.
Proof.
  destruct s as [|c r]; simpl; [reflexivity|].
  destruct (is_space c) eqn:S.
  - intros H. exfalso.
    assert (L : forall t, (String.length (lstrip t) <= String.length t)%nat).
    { induction t as [|a t IHt]; simpl; [lia|].
      destruct (is_space a); simpl; lia. }
    pose proof (L r) as Lr. rewrite H in Lr. simpl in Lr. lia.
  - intros _. destruct (rstrip r); simpl; now rewrite S.
Qed.

Lemma lstrip_idem (s : string) : lstrip (lstrip s) = lstrip s.
Proof.
  induction s as [|c r IH]; simpl; [reflexivity|].
  destruct (is_space c) eqn:S; [exact IH|]. simpl. now rewrite S.
Qed.

Lemma strip_idem (s : string) : str_strip (str_strip s) = str_strip s.
Proof.
  unfold str_strip.
  rewrite (lstrip_fixed_rstrip (lstrip s) (lstrip_idem s)).
  apply rstrip_idem.
Qed.

Lemma normalize_twice (s : string) :
  str_lower (str_strip (str_lower (str_strip s))) = str_lower (str_strip s).
Proof. now rewrite strip_lower, strip_idem, str_lower_idem. Qed.

Lemma churn_flags_normalized show (c : column) :
  churn_flags show (normalize_text show c) = churn_flags show c.
Proof.
  unfold churn_flags, normalize_text. rewrite map_map. apply map_ext.
  intros x. cbn [astype_str]. now rewrite normalize_twice.
Qed.

Lemma nrows_setcol (df : DataFrame) (c : string) (old new : column) :
  getcol df c = Ok old -> List.length new = List.length old ->
  nrows (setcol df c new) = nrows df.
Proof.
  destruct df as [|[m d] rest]; simpl; [discriminate|].
  destruct (String.eqb m c); simpl; [|reflexivity].
  intros [= ->]. auto.
Qed.

Lemma nrows_coerce_column parse (df : DataFrame) (col : option string) :
  (forall c, col = Some c -> has_col df c = true) ->
  nrows (coerce_column parse df col) = nrows df.
Proof.
  intros H. destruct col as [c|]; simpl; [|reflexivity].
  specialize (H c eq_refl). apply has_col_getcol in H. destruct H as [old Hold].
  apply (nrows_setcol df c old); [exact Hold|].
  unfold col_or_empty, to_numeric. rewrite Hold. apply length_map.
Qed.

Lemma getcol_coerce_other parse (df : DataFrame) (col : option string)
    (k : string) :
  (forall c, col = Some c -> str_lower c <> str_lower k) ->
  getcol (coerce_column parse df col) k = getcol df k.
Proof.
  intros H. destruct col as [c|]; simpl; [|reflexivity].
  apply getcol_setcol_other. apply String.eqb_neq. intros ->.
  now apply (H c).
Qed.

(** X17.  The churn percentage is the same on the table as [fetch_table]
    returns it and on the table as it was built from the rows: trimming
    and lower-casing the churn column twice is the same as doing it once,
    and coercing the charges does not touch the churn column or the number
    of rows. *)
Theorem churn_pct_unchanged_by_fetch parse show (df : DataFrame) :
  kpi_churn_pct show (fetch_table_normalize parse show df)
  = kpi_churn_pct show df /\
  (forall c, churn_flags show (normalize_text show c) = churn_flags show c).
Proof.
  split; [|apply churn_flags_normalized].
  unfold kpi_churn_pct.
  rewrite (find_col_columns df _ _ (fetched_columns parse show df)).
  destruct (_find_col df ["churn"]) as [ch|] eqn:Hch; [|reflexivity].
  f_equal. unfold fetch_table_normalize.
  destruct (df_empty df); [reflexivity|].
  set (m := _find_col df _).
  set (df1 := coerce_column parse df m).
  set (t := _find_col df _).
  set (df2 := coerce_column parse df1 t).
  pose proof (find_col_lower_in _ _ _ Hch) as Lch. simpl in Lch.
  destruct Lch as [Lch|[]].
  assert (Hm : forall c, m = Some c -> has_col df c = true).
  { intros c Hc. eapply find_col_has_col. exact Hc. }
  assert (C1 : columns df1 = columns df) by (now apply columns_coerce_column).
  assert (Ht : forall c, t = Some c -> has_col df1 c = true).
  { intros c Hc. unfold has_col. rewrite C1. eapply find_col_has_col. exact Hc. }
  assert (C2 : columns df2 = columns df).
  { unfold df2. rewrite columns_coerce_column; assumption. }
  assert (N2 : nrows df2 = nrows df).
  { unfold df2. rewrite nrows_coerce_column by exact Ht.
    now apply nrows_coerce_column. }
  assert (G2 : getcol df2 ch = getcol df ch).
  { unfold df2. rewrite getcol_coerce_other.
    - apply getcol_coerce_other. intros c Hc E.
      apply find_col_lower_in in Hc. rewrite E, <- Lch in Hc. simpl in Hc.
      repeat (destruct Hc as [Hc|Hc]; [discriminate Hc|]). destruct Hc.
    - intros c Hc E.
      apply find_col_lower_in in Hc. rewrite E, <- Lch in Hc. simpl in Hc.
      repeat (destruct Hc as [Hc|Hc]; [discriminate Hc|]). destruct Hc. }
  rewrite (find_col_columns df df2 _ C2), Hch.
  destruct (find_col_getcol _ _ _ Hch) as (col & Hcol & Ecol).
  assert (E2 : col_or_empty df2 ch = col).
  { unfold col_or_empty. now rewrite G2, Hcol. }
  rewrite E2, Ecol.
  rewrite (nrows_setcol df2 ch col); [| now rewrite G2 |].
  - unfold col_or_empty. rewrite getcol_setcol_same.
    now rewrite churn_flags_normalized, N2.
  - unfold normalize_text. apply length_map.
Qed.

(** ** The mean under imputation *)

Lemma Qnat_S (k : nat) : Qnat (S k) == Qnat k + 1.
Proof.
  replace (S k) with (k + 1)%nat by lia. rewrite Qnat_plus. reflexivity.
Qed.

Lemma filled_numbers (m : Q) (p : column) :
  Qsum (numbers (fillna (CNum m) p))
  == Qsum (numbers p) + Qnat (null_count p) * m /\
  List.length (numbers (fillna (CNum m) p))
  = (List.length (numbers p) + null_count p)%nat.
Proof.
  unfold numbers, null_count, fillna, Qsum.
  induction p as [|x xs [IHs IHl]].
  - split; [|reflexivity]. unfold Qnat. simpl. ring.
  - destruct x as [|q|s];
      cbn [map flat_map filter isna app fold_right List.length].
    + split; [|lia]. rewrite IHs, Qnat_S. ring.
    + split; [|lia]. rewrite IHs. ring.
    + split; assumption.
Qed.

(** X18.  Imputing the total charges leaves the mean of the column where it
    was: when a value reads as a number, the mean of the imputed column
    equals the mean of the values that read as numbers. *)
Theorem imputation_keeps_mean parse (c : column) :
  valid_values parse c <> [] ->
  exists m m',
    mean_of (valid_values parse c) = CNum m /\
    mean (impute_total_charges parse c) = CNum m' /\
    m' == m.
Proof.
  intros Hv. unfold impute_total_charges.
  rewrite mean_to_numeric.
  set (p := to_numeric parse c).
  assert (Hn : numbers p = valid_values parse c) by apply numbers_to_numeric.
  destruct (valid_values parse c) as [|v vs] eqn:E; [congruence|].
  cbn [mean_of].
  set (m := Qsum (v :: vs) / inject_Z (Z.of_nat (List.length (v :: vs)))).
  exists m. destruct (filled_numbers m p) as [Fs Fl].
  unfold mean.
  destruct (numbers (fillna (CNum m) p)) as [|w ws] eqn:F.
  { rewrite Hn in Fl. simpl in Fl. lia. }
  eexists. split; [reflexivity|]. split; [reflexivity|].
  rewrite Fs, Fl, Hn.
  fold (Qnat (List.length (v :: vs) + null_count p)).
  rewrite Qnat_plus. unfold m.
  fold (Qnat (List.length (v :: vs))).
  assert (P : ~ Qnat (List.length (v :: vs)) == 0)
    by (apply Qnat_pos; simpl; lia).
  assert (P' : ~ Qnat (List.length (v :: vs)) + Qnat (null_count p) == 0).
  { rewrite <- Qnat_plus. apply Qnat_pos. simpl. lia. }
  field. split; assumption.
Qed.

Lemma imputation_keeps_mean_witness :
  exists m m',
    mean_of (valid_values decimal_literal [CStr " "; CStr "50"; CStr "70"])
    = CNum m /\
    mean (impute_total_charges decimal_literal [CStr " "; CStr "50"; CStr "70"])
    = CNum m' /\
    m' == m.
Proof.
  apply (imputation_keeps_mean decimal_literal [CStr " "; CStr "50"; CStr "70"]).
  discriminate.
Defined.

(** ** When the pivot exists *)

Lemma existsb_negb_In (l : list bool) : existsb negb l = true <-> In false l.
Proof.
  rewrite existsb_exists. split.
  - intros ([] & H & E); [discriminate | exact H].
  - intros H. exists false. auto.
Qed.

Lemma existsb_id_In (l : list bool) : existsb id l = true <-> In true l.
Proof.
  rewrite existsb_exists. split.
  - intros ([] & H & E); [exact H | discriminate].
  - intros H. exists true. auto.
Qed.

(** X19.  The churn-vs-tenure pivot is produced exactly when the churn
    flags hold both a churner and a non-churner; otherwise reading back
    the absent percentage column raises [KeyError].  When it is produced,
    its rows are the distinct tenure groups, none of them missing, each
    with both percentages between 0 and 100. *)
Theorem pivot_defined_iff (tg : column) (flags : list bool) :
  ((exists table, churn_vs_tenure tg flags = Ok table)
   <-> In true flags /\ In false flags) /\
  (~ In false flags ->
   churn_vs_tenure tg flags = Raise (KeyError "no_churn_pct")) /\
  (In false flags -> ~ In true flags ->
   churn_vs_tenure tg flags = Raise (KeyError "churn_pct")) /\
  (forall table,
      churn_vs_tenure tg flags = Ok table ->
      ForallOrdPairs (fun g1 g2 => cell_eqb g1 g2 = false)
                     (map tenure_group table) /\
      Forall (fun r => isna (tenure_group r) = false /\
                       0 <= no_churn_pct r <= 100 /\
                       0 <= churn_pct r <= 100) table).
Proof.
  assert (A : forall table,
             churn_vs_tenure tg flags = Ok table ->
             In true flags /\ In false flags /\
             ForallOrdPairs (fun g1 g2 => cell_eqb g1 g2 = false)
                            (map tenure_group table) /\
             Forall (fun r => isna (tenure_group r) = false /\
                              0 <= no_churn_pct r <= 100 /\
                              0 <= churn_pct r <= 100) table).
  { unfold churn_vs_tenure. intros table.
    destruct (existsb negb flags) eqn:N; [|discriminate].
    destruct (existsb id flags) eqn:T; [|discriminate].
    cbn [negb]. intros [= <-].
    apply existsb_negb_In in N. apply existsb_id_In in T.
    split; [exact T|]. split; [exact N|]. split.
    - rewrite map_map. cbn [tenure_group]. rewrite map_id.
      apply unique_pairwise.
    - apply Forall_forall. intros r Hr.
      apply in_map_iff in Hr. destruct Hr as (g & <- & Hg).
      cbn [tenure_group no_churn_pct churn_pct].
      apply In_unique in Hg.
      pose proof (crosstab_row_nonempty _ g Hg) as Hpos.
      split.
      + apply in_map_iff in Hg. destruct Hg as ([h f] & <- & Hin).
        apply in_combine_l in Hin. unfold fillna in Hin.
        apply in_map_iff in Hin. destruct Hin as (x & <- & _).
        destruct x; reflexivity.
      + split; apply share_bounds; lia. }
  assert (B : ~ In false flags ->
              churn_vs_tenure tg flags = Raise (KeyError "no_churn_pct")).
  { intros H. unfold churn_vs_tenure.
    destruct (existsb negb flags) eqn:N; [|reflexivity].
    apply existsb_negb_In in N. contradiction. }
  assert (C : In false flags -> ~ In true flags ->
              churn_vs_tenure tg flags = Raise (KeyError "churn_pct")).
  { intros Hf Ht. unfold churn_vs_tenure.
    apply existsb_negb_In in Hf. rewrite Hf. cbn [negb].
    destruct (existsb id flags) eqn:T; [|reflexivity].
    apply existsb_id_In in T. contradiction. }
  split; [|split; [exact B|split; [exact C|]]].
  - split.
    + intros [table H]. destruct (A table H) as (T & N & _). auto.
    + intros [T N]. unfold churn_vs_tenure.
      apply existsb_negb_In in N. apply existsb_id_In in T.
      rewrite N, T. cbn [negb]. eauto.
  - intros table H. destruct (A table H) as (_ & _ & P & Q). auto.
Qed.

Lemma pivot_defined_iff_witness :
  churn_vs_tenure [CStr "New"; CNull] [false; false]
  = Raise (KeyError "churn_pct").
Proof.
  destruct (pivot_defined_iff [CStr "New"; CNull] [false; false])
    as (_ & _ & H & _).
  apply H; simpl; intuition discriminate.
Defined.
